(** * QSAN iSCSI volume driver: REST client and export orchestration

    A shallow embedding of
      - [cinder/volume/drivers/qsan/common.py]     (class [QSANClient])
      - [cinder/volume/drivers/qsan/qsan_iscsi.py] (class [QSANISCSIDriver])
    together with the properties of the retrying request primitive, the
    provider-location codec and the idempotent teardown paths.

    Modelling conventions
      - Python [str] is [string] (a sequence of 8-bit characters), Python
        [int] is [Z], [dict] with string keys is [gmap string _].
      - A value travelling through JSON is a [pyval]; JSON numbers are
        integers here (no floating point).
      - Exceptions are values of [exn]; a computation that may raise has
        type [result A]; a computation that also talks to the array runs in
        the monad [M], whose state is the client object together with the
        chronological trace of wire requests and sleeps.
      - Calls to [LOG.*] have no effect on any value and are left out. *)

From Stdlib Require Import Ascii String ZArith.
From stdpp Require Import gmap strings list.

Set Warnings "-register-all".
Set Default Proof Using "Type".

Local Open Scope string_scope.
Local Open Scope Z_scope.
Local Open Scope list_scope.

(* ================================================================== *)
(** ** Python strings *)
(* ================================================================== *)

Module pystr.

(** [c in s] for a one-character [c]. *)
Fixpoint contains (c : ascii) (s : string) : bool :=
  match s with
  | EmptyString => false
  | String a r => if Ascii.eqb a c then true else contains c r
  end.

(** [s.split(sep)] for a one-character separator: every occurrence of
    [sep] cuts, empty fields are kept, and the result is never empty
    ([''.split(' ') == ['']]). *)
Fixpoint split (sep : ascii) (s : string) : list string :=
  match s with
  | EmptyString => [EmptyString]
  | String a r =>
      if Ascii.eqb a sep then EmptyString :: split sep r
      else match split sep r with
           | [] => [String a EmptyString]
           | w :: ws => String a w :: ws
           end
  end.

(** [sep.join(l)]. *)
Fixpoint join (sep : string) (l : list string) : string :=
  match l with
  | [] => EmptyString
  | [x] => x
  | x :: r => x +:+ sep +:+ join sep r
  end.

(** Truth value of a string: [bool(s)]. *)
Definition truthy (s : string) : bool :=
  match s with EmptyString => false | _ => true end.

(** Truth value of an attribute that is either [None] or a string. *)
Definition truthy_opt (o : option string) : bool :=
  match o with None => false | Some s => truthy s end.

(** *** Decimal rendering of integers: [str(n)], [f"{n}"] *)

Definition digit_char (d : Z) : ascii := ascii_of_nat (48 + Z.to_nat d).

Fixpoint digits_from (fuel : nat) (n : Z) (tail : string) : string :=
  match fuel with
  | O => tail
  | S f =>
      let tail' := String (digit_char (n `mod` 10)) tail in
      if n <? 10 then tail' else digits_from f (n `div` 10) tail'
  end.

(** The number of binary digits bounds the number of decimal digits. *)
Definition str_nonneg (n : Z) : string :=
  digits_from (S (Z.to_nat (Z.log2 n))) n EmptyString.

Definition of_int (n : Z) : string :=
  if n <? 0 then String "-" (str_nonneg (- n)) else str_nonneg n.

(** *** Parsing integers: [int(s)]

    [int] skips surrounding white space, accepts one optional sign and
    then decimal digits, where single underscores may separate digits.
    [None] stands for [ValueError]. *)

Definition is_space (c : ascii) : bool :=
  let n := nat_of_ascii c in
  ((9 <=? n)%nat && (n <=? 13)%nat) || ((28 <=? n)%nat && (n <=? 32)%nat).

Definition is_digit (c : ascii) : bool :=
  let n := nat_of_ascii c in (48 <=? n)%nat && (n <=? 57)%nat.

Definition digit_val (c : ascii) : Z := Z.of_nat (nat_of_ascii c) - 48.

Fixpoint lstrip (s : string) : string :=
  match s with
  | EmptyString => EmptyString
  | String a r => if is_space a then lstrip r else s
  end.

Fixpoint rstrip (s : string) : string :=
  match s with
  | EmptyString => EmptyString
  | String a r =>
      match rstrip r with
      | EmptyString => if is_space a then EmptyString else String a EmptyString
      | r' => String a r'
      end
  end.

Definition strip (s : string) : string := rstrip (lstrip s).

Fixpoint parse_digits (s : string) (acc : Z) (after_digit : bool) : option Z :=
  match s with
  | EmptyString => if after_digit then Some acc else None
  | String a r =>
      if is_digit a then parse_digits r (10 * acc + digit_val a) true
      else if Ascii.eqb a "_" then
        if after_digit then parse_digits r acc false else None
      else None
  end.

Definition to_int (s : string) : option Z :=
  match strip s with
  | String a r =>
      if Ascii.eqb a "-" then Z.opp <$> parse_digits r 0 false
      else if Ascii.eqb a "+" then parse_digits r 0 false
      else parse_digits (String a r) 0 false
  | EmptyString => None
  end.

End pystr.

(* ================================================================== *)
(** ** Values, exceptions and results *)
(* ================================================================== *)

(** What [response.json()] can produce, and what the driver stores in the
    dictionaries it sends and returns. *)
Inductive pyval :=
| PNone
| PBool (b : bool)
| PInt (z : Z)
| PStr (s : string)
| PList (l : list pyval)
| PDict (d : gmap string pyval).

(** The exception classes that occur on the modelled paths. *)
Inductive exn :=
| QSANApiException (message : string)
| VolumeBackendAPIException (data : string)
| AttributeError
| KeyError
| TypeError
| IndexError
| ValueError.

Inductive result (A : Type) :=
| OK (a : A)
| Raise (e : exn).
Arguments OK {A} a.
Arguments Raise {A} e.

Definition result_bind {A B} (r : result A) (k : A -> result B) : result B :=
  match r with OK a => k a | Raise e => Raise e end.

Definition opt_pyval (o : option string) : pyval :=
  match o with None => PNone | Some s => PStr s end.

(* ================================================================== *)
(** ** The persisted records handed in by the volume framework *)
(* ================================================================== *)

Module Volume.
Record t := {
  id : string;
  size : Z;
  provider_location : option string;
  provider_auth : option string;
}.
End Volume.

Module Snapshot.
Record t := {
  id : string;
  volume : Volume.t;
}.
End Snapshot.

(* ================================================================== *)
(** ** Operations of Python values *)
(* ================================================================== *)

(** [bool(v)], as tested by [if v:]. *)
Definition py_truthy (v : pyval) : bool :=
  match v with
  | PNone => false
  | PBool b => b
  | PInt z => negb (z =? 0)
  | PStr s => pystr.truthy s
  | PList l => match l with [] => false | _ => true end
  | PDict d => (0 <? size d)%nat
  end.

(** [len(v)]; [None], booleans and integers have no length. *)
Definition py_len (v : pyval) : result Z :=
  match v with
  | PStr s => OK (Z.of_nat (String.length s))
  | PList l => OK (Z.of_nat (length l))
  | PDict d => OK (Z.of_nat (size d))
  | PNone | PBool _ | PInt _ => Raise TypeError
  end.

(** [v[0]].  The keys of a decoded JSON object are strings, so the integer
    key [0] is never among them. *)
Definition py_getitem0 (v : pyval) : result pyval :=
  match v with
  | PList l => match l with x :: _ => OK x | [] => Raise IndexError end
  | PStr s => match s with
              | String a _ => OK (PStr (String a EmptyString))
              | EmptyString => Raise IndexError
              end
  | PDict _ => Raise KeyError
  | PNone | PBool _ | PInt _ => Raise TypeError
  end.

(** [v.get(key, default)]; only dictionaries have the method. *)
Definition py_get (v : pyval) (key : string) (dflt : pyval) : result pyval :=
  match v with
  | PDict d => OK (default dflt (d !! key))
  | _ => Raise AttributeError
  end.

(** [str(e)] of a raised exception.  [QSANApiException] formats
    ["QSAN API error: %(message)s"]. *)
Definition str_exn (e : exn) : string :=
  match e with
  | QSANApiException message => "QSAN API error: " +:+ message
  | VolumeBackendAPIException data => data
  | AttributeError => "AttributeError"
  | KeyError => "KeyError"
  | TypeError => "TypeError"
  | IndexError => "IndexError"
  | ValueError => "ValueError"
  end.

(* ================================================================== *)
(** ** A state and exception monad *)
(* ================================================================== *)

Definition SR (S A : Type) : Type := S -> result A * S.

Definition ret {S A} (a : A) : SR S A := fun s => (OK a, s).

Definition raise {S A} (e : exn) : SR S A := fun s => (Raise e, s).

Definition lift {S A} (r : result A) : SR S A := fun s => (r, s).

Definition bind {S A B} (c : SR S A) (k : A -> SR S B) : SR S B :=
  fun s =>
    match c s with
    | (OK a, s') => k a s'
    | (Raise e, s') => (Raise e, s')
    end.

(** [try: c  except <classes> as e: handler e]; [handler e = None] when
    the class of [e] is not among the ones caught. *)
Definition try_except {S A} (c : SR S A) (handler : exn -> option (SR S A)) : SR S A :=
  fun s =>
    match c s with
    | (OK a, s') => (OK a, s')
    | (Raise e, s') =>
        match handler e with
        | Some h => h s'
        | None => (Raise e, s')
        end
    end.

(** [try: c  finally: cleanup]. *)
Definition try_finally {S A} (c : SR S A) (cleanup : S -> S) : SR S A :=
  fun s => let '(r, s') := c s in (r, cleanup s').

Declare Scope sr_scope.
Delimit Scope sr_scope with sr.
Notation "x <- c ;; k" := (bind c (fun x => k))
  (at level 100, c at next level, right associativity) : sr_scope.
Notation "c ;;; k" := (bind c (fun _ => k))
  (at level 100, right associativity) : sr_scope.

(** [except common.QSANApiException as e: k (str e)]. *)
Definition on_QSANApiException {S A} (k : exn -> SR S A) : exn -> option (SR S A) :=
  fun e => match e with QSANApiException _ => Some (k e) | _ => None end.

(** [except Exception as e: k e]. *)
Definition on_Exception {S A} (k : exn -> SR S A) : exn -> option (SR S A) :=
  fun e => Some (k e).

(** [oslo_utils.units.Gi]. *)
Module units.
Definition Gi : Z := 1024 ^ 3.
End units.

(* ================================================================== *)
(** ** [common.py]: the REST client *)
(* ================================================================== *)

Module common.

(** The arguments of one [session.request(...)] call. *)
Record Request := {
  req_method : string;
  req_url : string;
  req_json : option (gmap string pyval);
  req_params : option (gmap string pyval);
  req_headers : gmap string string;
  req_timeout : Z;
}.

(** [response.content] is empty, or holds a JSON document, or holds bytes
    that [response.json()] rejects. *)
Inductive Body :=
| EmptyBody
| JsonBody (v : pyval)
| MalformedBody (why : string).

Record Response := {
  status_code : Z;
  reason : string;
  resp_url : string;
  content : Body;
}.

(** What the transport does with a request: it raises a connection-level
    [requests.exceptions.RequestException] (connection refused, timeout,
    ...) or it delivers a response. *)
Inductive Outcome :=
| TransportRaises (why : string)
| Responds (r : Response).

(** The members of the [requests.exceptions.RequestException] family that
    the body of the [try] in [_request] can raise. *)
Inductive RequestException :=
| ConnectivityError (why : string)
| HTTPError (why : string)
| JSONDecodeError (why : string).

Definition str_RequestException (e : RequestException) : string :=
  match e with
  | ConnectivityError why | HTTPError why | JSONDecodeError why => why
  end.

(** What is observable from outside, in chronological order. *)
Inductive Event :=
| EvRequest (r : Request)
| EvSleep (seconds : Z).

(** [requests.Session()], with its [verify] attribute. *)
Record Session := { verify : bool }.

Record QSANClient := {
  host : string;
  port : Z;
  protocol : string;
  username : string;
  password : string;
  ssl_verify : bool;
  timeout : Z;
  retry_count : Z;
  base_url : string;
  session : option Session;
  session_token : option string;
}.

(** [QSANClient.__init__]. *)
Definition __init__ (host : string) (port : Z) (protocol username password : string)
           (ssl_verify : bool) (timeout retry_count : Z) : QSANClient :=
  {| host := host; port := port; protocol := protocol;
     username := username; password := password;
     ssl_verify := ssl_verify; timeout := timeout; retry_count := retry_count;
     base_url := protocol +:+ "://" +:+ host +:+ ":" +:+ pystr.of_int port +:+ "/api";
     session := None; session_token := None |}.

(** The client object together with the trace of what it did so far. *)
Record World := {
  self : QSANClient;
  trace : list Event;
}.

Definition M (A : Type) : Type := SR World A.

Definition get_self : M QSANClient := fun w => (OK (self w), w).

Definition emit (ev : Event) : M unit :=
  fun w => (OK tt, {| self := self w; trace := trace w ++ [ev] |}).

(** [time.sleep(seconds)]. *)
Definition sleep (seconds : Z) : M unit := emit (EvSleep seconds).

(** Assignment to [self.session] and [self.session_token]. *)
Definition with_session (c : QSANClient) (s : option Session) (token : option string)
  : QSANClient :=
  {| host := host c; port := port c; protocol := protocol c;
     username := username c; password := password c;
     ssl_verify := ssl_verify c; timeout := timeout c;
     retry_count := retry_count c; base_url := base_url c;
     session := s; session_token := token |}.

(** [self.session_token = None; self.session = None]. *)
Definition clear_session (w : World) : World :=
  {| self := with_session (self w) None None; trace := trace w |}.

(** [response.raise_for_status()]: [Some e] when it raises. *)
Definition raise_for_status (response : Response) : option RequestException :=
  let code := status_code response in
  if (400 <=? code) && (code <? 500) then
    Some (HTTPError (pystr.of_int code +:+ " Client Error: " +:+ reason response
                     +:+ " for url: " +:+ resp_url response))
  else if (500 <=? code) && (code <? 600) then
    Some (HTTPError (pystr.of_int code +:+ " Server Error: " +:+ reason response
                     +:+ " for url: " +:+ resp_url response))
  else None.

Section Client.

(** The array and the network between: given everything that happened
    so far, how the next request fares. *)
Variable transport : list Event -> Request -> Outcome.

(** Python's [repr] of lists and dictionaries, which an f-string uses
    for a value of those types. *)
Variable repr_container : pyval -> string.

(** [f"{v}"]. *)
Definition py_str (v : pyval) : string :=
  match v with
  | PNone => "None"
  | PBool true => "True"
  | PBool false => "False"
  | PInt z => pystr.of_int z
  | PStr s => s
  | PList _ | PDict _ => repr_container v
  end.

(** [self.session.request(...)]: [AttributeError] when [self.session]
    is [None]; otherwise the request goes out. *)
Definition session_request (req : Request) : M (RequestException + Response) :=
  fun w =>
    match session (self w) with
    | None => (Raise AttributeError, w)
    | Some _ =>
        let w' := {| self := self w; trace := trace w ++ [EvRequest req] |} in
        match transport (trace w) req with
        | TransportRaises why => (OK (inl (ConnectivityError why)), w')
        | Responds response => (OK (inr response), w')
        end
    end.

(** The body of the [try] in [_request], lines 137-148: [inl e] when a
    [RequestException] is raised, [inr v] when a value is returned. *)
Definition request_once (req : Request) : M (RequestException + pyval) :=
  (r <- session_request req ;;
   match r with
   | inl e => ret (inl e)
   | inr response =>
       match raise_for_status response with
       | Some e => ret (inl e)
       | None =>
           match content response with
           | EmptyBody => ret (inr PNone)
           | JsonBody v => ret (inr v)
           | MalformedBody why => ret (inl (JSONDecodeError why))
           end
       end
   end)%sr.

(** The [for attempt in range(self.retry_count)] loop, lines 135-156.
    Falling out of the loop returns [None]. *)
Fixpoint request_loop (retry_count : Z) (req : Request) (attempts : list Z) : M pyval :=
  match attempts with
  | [] => ret PNone
  | attempt :: rest =>
      (r <- request_once req ;;
       match r with
       | inr v => ret v
       | inl e =>
           if attempt <? retry_count - 1 then
             (sleep 1 ;;; request_loop retry_count req rest)
           else
             raise (QSANApiException
                      ("QSAN API request failed: " +:+ str_RequestException e))
       end)%sr
  end.

Definition make_headers (c : QSANClient) : gmap string string :=
  let headers : gmap string string := {[ "Content-Type" := "application/json" ]} in
  match session_token c with
  | Some token =>
      if pystr.truthy token then <["Authorization" := "Bearer " +:+ token]> headers
      else headers
  | None => headers
  end.

Definition make_request (c : QSANClient) (method url : string)
           (data params : option (gmap string pyval)) : Request :=
  {| req_method := method; req_url := url; req_json := data;
     req_params := params; req_headers := make_headers c;
     req_timeout := timeout c |}.

(** [QSANClient._request(self, method, url, data=None, params=None)]. *)
Definition _request (method url : string)
           (data params : option (gmap string pyval)) : M pyval :=
  (c <- get_self ;;
   request_loop (retry_count c) (make_request c method url data params)
                (seqZ 0 (retry_count c)))%sr.

(** [QSANClient.logout(self)]. *)
Definition logout : M unit :=
  (c <- get_self ;;
   match session c, session_token c with
   | Some _, Some _ =>
       let url := base_url c +:+ "/logout" in
       try_finally
         (try_except (_request "POST" url None None ;;; ret tt)
                     (on_Exception (fun _ => ret tt)))
         clear_session
   | _, _ => ret tt
   end)%sr.

(** *** Volume operations *)

Definition create_volume (pool_name : option string) (volume_name : string)
           (size_gb : Z) (thin : bool) : M pyval :=
  (c <- get_self ;;
   let url := base_url c +:+ "/volumes" in
   let data : gmap string pyval :=
     <["thin_provision" := PBool thin]>
     (<["size" := PInt (size_gb * units.Gi)]>
     (<["name" := PStr volume_name]>
     (<["pool" := opt_pyval pool_name]> ∅))) in
   _request "POST" url (Some data) None)%sr.

Definition delete_volume (volume_name : string) : M pyval :=
  (c <- get_self ;;
   let url := base_url c +:+ "/volumes/" +:+ volume_name in
   _request "DELETE" url None None)%sr.

Definition extend_volume (volume_name : string) (new_size_gb : Z) : M pyval :=
  (c <- get_self ;;
   let url := base_url c +:+ "/volumes/" +:+ volume_name in
   let data : gmap string pyval := {[ "size" := PInt (new_size_gb * units.Gi) ]} in
   _request "PUT" url (Some data) None)%sr.

Definition get_volume (volume_name : string) : M pyval :=
  (c <- get_self ;;
   let url := base_url c +:+ "/volumes/" +:+ volume_name in
   try_except (_request "GET" url None None)
              (on_QSANApiException (fun _ => ret PNone)))%sr.

(** *** Snapshot operations *)

Definition delete_snapshot (volume_name snapshot_name : string) : M pyval :=
  (c <- get_self ;;
   let url := base_url c +:+ "/volumes/" +:+ volume_name
              +:+ "/snapshots/" +:+ snapshot_name in
   _request "DELETE" url None None)%sr.

Definition get_snapshot (volume_name snapshot_name : string) : M pyval :=
  (c <- get_self ;;
   let url := base_url c +:+ "/volumes/" +:+ volume_name
              +:+ "/snapshots/" +:+ snapshot_name in
   try_except (_request "GET" url None None)
              (on_QSANApiException (fun _ => ret PNone)))%sr.

(** *** iSCSI operations *)

Definition create_iscsi_target (target_name : string) (target_iqn : option string)
  : M pyval :=
  (c <- get_self ;;
   let url := base_url c +:+ "/iscsi/targets" in
   let data : gmap string pyval := {[ "name" := PStr target_name ]} in
   let data :=
     match target_iqn with
     | Some iqn => if pystr.truthy iqn then <["iqn" := PStr iqn]> data else data
     | None => data
     end in
   _request "POST" url (Some data) None)%sr.

Definition delete_iscsi_target (target_id : pyval) : M pyval :=
  (c <- get_self ;;
   let url := base_url c +:+ "/iscsi/targets/" +:+ py_str target_id in
   _request "DELETE" url None None)%sr.

Definition get_iscsi_target_by_name (target_name : string) : M pyval :=
  (c <- get_self ;;
   let url := base_url c +:+ "/iscsi/targets" in
   let params : gmap string pyval := {[ "name" := PStr target_name ]} in
   try_except
     (result <- _request "GET" url None (Some params) ;;
      if py_truthy result then
        n <- lift (py_len result) ;;
        if 0 <? n then lift (py_getitem0 result) else ret PNone
      else ret PNone)
     (on_QSANApiException (fun _ => ret PNone)))%sr.

Definition map_volume_to_target (volume_name : string) (target_id : pyval)
           (lun_id : option Z) : M pyval :=
  (c <- get_self ;;
   let url := base_url c +:+ "/iscsi/targets/" +:+ py_str target_id +:+ "/luns" in
   let data : gmap string pyval := {[ "volume" := PStr volume_name ]} in
   let data :=
     match lun_id with
     | Some n => <["lun_id" := PInt n]> data
     | None => data
     end in
   _request "POST" url (Some data) None)%sr.

Definition add_initiator_to_target (target_id initiator_iqn : pyval) : M pyval :=
  (c <- get_self ;;
   let url := base_url c +:+ "/iscsi/targets/" +:+ py_str target_id +:+ "/acl" in
   let data : gmap string pyval := {[ "initiator" := initiator_iqn ]} in
   _request "POST" url (Some data) None)%sr.

Definition set_target_chap (target_id : pyval) (username password : string) : M pyval :=
  (c <- get_self ;;
   let url := base_url c +:+ "/iscsi/targets/" +:+ py_str target_id +:+ "/chap" in
   let data : gmap string pyval :=
     <["password" := PStr password]> {[ "username" := PStr username ]} in
   _request "PUT" url (Some data) None)%sr.

(** *** Login *)

(** [QSANClient._create_session(self)]. *)
Definition _create_session : M unit :=
  fun w =>
    (OK tt,
     {| self := with_session (self w) (Some {| verify := ssl_verify (self w) |})
                             (session_token (self w));
        trace := trace w |}).

(** What the client keeps of the value assigned to [self.session_token].
    The client reads the token in three ways only: [is None], its truth
    value, and its rendering in an f-string.  A string is kept as it is; a
    false value other than [None] is kept as the empty text; any other
    value is kept as its rendering (the [repr] of a non-empty list or
    dictionary is not empty). *)
Definition token_text (v : pyval) : option string :=
  match v with
  | PNone => None
  | PStr s => Some s
  | _ => if py_truthy v then Some (py_str v) else Some EmptyString
  end.

Definition store_token (v : pyval) : M unit :=
  fun w =>
    (OK tt,
     {| self := with_session (self w) (session (self w)) (token_text v);
        trace := trace w |}).

(** The arguments of [self.session.post(url, json=data, timeout=...)]. *)
Definition make_post (c : QSANClient) (url : string) (data : gmap string pyval)
  : Request :=
  {| req_method := "POST"; req_url := url; req_json := Some data;
     req_params := None; req_headers := ∅; req_timeout := timeout c |}.

Definition login_data (c : QSANClient) : gmap string pyval :=
  <["password" := PStr (password c)]> {[ "username" := PStr (username c) ]}.

(** [QSANClient.login(self)], lines 73-101.  [response.json()] on an
    empty or undecodable body raises [JSONDecodeError], which the handler
    catches; [result.get] on a document that is no object raises
    [AttributeError], which it does not. *)
Definition login : M unit :=
  (c <- get_self ;;
   (match session c with None => _create_session | Some _ => ret tt end) ;;;
   let url := base_url c +:+ "/login" in
   let failed (e : RequestException) : M unit :=
     raise (QSANApiException
              ("Failed to login to QSAN storage: " +:+ str_RequestException e)) in
   r <- session_request (make_post c url (login_data c)) ;;
   match r with
   | inl e => failed e
   | inr response =>
       match raise_for_status response with
       | Some e => failed e
       | None =>
           match content response with
           | EmptyBody => failed (JSONDecodeError "Expecting value: line 1 column 1 (char 0)")
           | MalformedBody why => failed (JSONDecodeError why)
           | JsonBody result =>
               token <- lift (py_get result "token" PNone) ;;
               store_token token
           end
       end
   end)%sr.

(** *** More volume, snapshot and clone operations *)

Definition create_snapshot (volume_name snapshot_name : string) : M pyval :=
  (c <- get_self ;;
   let url := base_url c +:+ "/volumes/" +:+ volume_name +:+ "/snapshots" in
   let data : gmap string pyval := {[ "name" := PStr snapshot_name ]} in
   _request "POST" url (Some data) None)%sr.

Definition clone_volume (src_volume_name dst_volume_name : string)
           (snapshot_name : option string) : M pyval :=
  (c <- get_self ;;
   let url := base_url c +:+ "/volumes/" +:+ src_volume_name +:+ "/clone" in
   let data : gmap string pyval := {[ "name" := PStr dst_volume_name ]} in
   let data :=
     match snapshot_name with
     | Some snap => if pystr.truthy snap then <["snapshot" := PStr snap]> data else data
     | None => data
     end in
   _request "POST" url (Some data) None)%sr.

(** [if size_gb:] is false for [None] and for [0]. *)
Definition create_volume_from_snapshot (snapshot_volume_name snapshot_name
                                        new_volume_name : string)
           (size_gb : option Z) : M pyval :=
  (c <- get_self ;;
   let url := base_url c +:+ "/volumes/" +:+ snapshot_volume_name
              +:+ "/snapshots/" +:+ snapshot_name +:+ "/clone" in
   let data : gmap string pyval := {[ "name" := PStr new_volume_name ]} in
   let data :=
     match size_gb with
     | Some n => if negb (n =? 0) then <["size" := PInt (n * units.Gi)]> data else data
     | None => data
     end in
   _request "POST" url (Some data) None)%sr.

(** *** Pool operations *)

Definition get_pool (pool_name : option string) : M pyval :=
  (c <- get_self ;;
   let url := base_url c +:+ "/pools/" +:+ py_str (opt_pyval pool_name) in
   _request "GET" url None None)%sr.

Definition get_pool_stats (pool_name : option string) : M (gmap string pyval) :=
  (pool_info <- get_pool pool_name ;;
   total <- lift (py_get pool_info "total_capacity" (PInt 0)) ;;
   free <- lift (py_get pool_info "free_capacity" (PInt 0)) ;;
   used <- lift (py_get pool_info "used_capacity" (PInt 0)) ;;
   ret (<["used_capacity" := used]>
        (<["free_capacity" := free]>
        ({[ "total_capacity" := total ]} : gmap string pyval))))%sr.

(** *** More iSCSI operations *)

Definition get_iscsi_target (target_id : pyval) : M pyval :=
  (c <- get_self ;;
   let url := base_url c +:+ "/iscsi/targets/" +:+ py_str target_id in
   _request "GET" url None None)%sr.

Definition unmap_volume_from_target (target_id lun_id : pyval) : M pyval :=
  (c <- get_self ;;
   let url := base_url c +:+ "/iscsi/targets/" +:+ py_str target_id
              +:+ "/luns/" +:+ py_str lun_id in
   _request "DELETE" url None None)%sr.

Definition get_target_luns (target_id : pyval) : M pyval :=
  (c <- get_self ;;
   let url := base_url c +:+ "/iscsi/targets/" +:+ py_str target_id +:+ "/luns" in
   _request "GET" url None None)%sr.



Definition get_iscsi_portals : M pyval :=
  (c <- get_self ;;
   let url := base_url c +:+ "/iscsi/portals" in
   result <- _request "GET" url None None ;;
   lift (py_get result "portals" (PList [])))%sr.

(** *** System operations *)

Definition get_system_info : M pyval :=
  (c <- get_self ;;
   let url := base_url c +:+ "/system" in
   _request "GET" url None None)%sr.

Definition get_system_version : M pyval :=
  (info <- get_system_info ;;
   lift (py_get info "version" (PStr "unknown")))%sr.

Definition get_iscsi_iqn_prefix : M pyval :=
  (info <- get_system_info ;;
   lift (py_get info "iscsi_iqn_prefix" (PStr "iqn.2004-08.com.qsan")))%sr.

End Client.

End common.

(* ================================================================== *)
(** ** [qsan_iscsi.py]: the volume driver *)
(* ================================================================== *)

Module qsan_iscsi.

(** The options of [options.py] that the modelled methods read.  A
    [StrOpt] without default is [None] until set. *)
Record Configuration := {
  qsan_management_ip : option string;
  qsan_pool_name : option string;
  qsan_iscsi_portals : list string;
  qsan_chap_enabled : bool;
  qsan_chap_username : option string;
  qsan_chap_password : option string;
  qsan_thin_provision : bool;
}.

(** *** Export codec *)

(** [create_export], lines 354-357:
    [portal_str = ';'.join(portals)] and
    [provider_location = f"{portal_str} {target_iqn} {lun_id}"],
    on already rendered IQN and LUN texts. *)
Definition format_location (portals : list string) (iqn_text lun_text : string) : string :=
  pystr.join ";" portals +:+ " " +:+ iqn_text +:+ " " +:+ lun_text.

(** The same for an IQN that is a string and a LUN that is an integer. *)
Definition encode_location (portals : list string) (iqn : string) (lun : Z) : string :=
  format_location portals iqn (pystr.of_int lun).

(** [_get_iscsi_properties], lines 474-478: parsing of a location text.
    [location_parts[i]] raises [IndexError] when out of range and [int]
    raises [ValueError]. *)
Definition parse_provider_location (location : string)
  : result (list string * string * Z) :=
  let location_parts := pystr.split " " location in
  match location_parts !! 0%nat with
  | None => Raise IndexError
  | Some part0 =>
      let portals := pystr.split ";" part0 in
      match location_parts !! 1%nat with
      | None => Raise IndexError
      | Some target_iqn =>
          match location_parts !! 2%nat with
          | None => Raise IndexError
          | Some part2 =>
              match pystr.to_int part2 with
              | None => Raise ValueError
              | Some target_lun => OK (portals, target_iqn, target_lun)
              end
          end
      end
  end.

(** [_get_iscsi_properties(self, volume)], lines 470-502.
    [if not volume.provider_location] holds for [None] and for the empty
    string. *)
Definition _get_iscsi_properties (volume : Volume.t) : result (gmap string pyval) :=
  let no_location :=
    Raise (VolumeBackendAPIException
             ("Volume " +:+ Volume.id volume +:+ " has no provider_location")) in
  match Volume.provider_location volume with
  | None => no_location
  | Some location =>
      if negb (pystr.truthy location) then no_location
      else
        result_bind (parse_provider_location location)
          (fun '(portals, target_iqn, target_lun) =>
             match portals with
             | [] => Raise IndexError
             | portal0 :: _ =>
                 let properties : gmap string pyval :=
                   <["volume_id" := PStr (Volume.id volume)]>
                   (<["target_lun" := PInt target_lun]>
                   (<["target_portal" := PStr portal0]>
                   (<["target_iqn" := PStr target_iqn]>
                   (<["target_discovered" := PBool false]> ∅)))) in
                 let properties :=
                   if (1 <? length portals)%nat then
                     <["target_luns" :=
                         PList (replicate (length portals) (PInt target_lun))]>
                     (<["target_iqns" :=
                         PList (replicate (length portals) (PStr target_iqn))]>
                     (<["target_portals" := PList (PStr <$> portals)]> properties))
                   else properties in
                 let properties :=
                   if pystr.truthy_opt (Volume.provider_auth volume) then
                     let auth_parts :=
                       pystr.split " " (default EmptyString (Volume.provider_auth volume)) in
                     match auth_parts with
                     | method :: user :: pass :: _ =>
                         <["auth_password" := PStr pass]>
                         (<["auth_username" := PStr user]>
                         (<["auth_method" := PStr method]> properties))
                     | _ => properties
                     end
                   else properties in
                 OK properties
             end)
  end.

(** [_get_volume_name], [_get_snapshot_name], [_get_target_name]. *)
Definition _get_volume_name (volume : Volume.t) : string :=
  "volume-" +:+ Volume.id volume.

Definition _get_snapshot_name (snapshot : Snapshot.t) : string :=
  "snapshot-" +:+ Snapshot.id snapshot.

Definition _get_target_name (volume : Volume.t) : string :=
  "target-" +:+ Volume.id volume.



(** The methods below run on a driver whose [do_setup] has bound
    [self._qsan_client]; the client is the [self] of the monad state. *)
Section Driver.

Variable transport : list common.Event -> common.Request -> common.Outcome.
Variable repr_container : pyval -> string.
Variable configuration : Configuration.

Local Abbreviation M := common.M.

(** [_get_iscsi_portals(self)], lines 182-201.  [':' not in portal]
    raises [TypeError] when the portal is [None]. *)
Definition _get_iscsi_portals : result (list string) :=
  let add_port (portal : string) : string :=
    if negb (pystr.contains ":" portal) then portal +:+ ":3260" else portal in
  match qsan_iscsi_portals configuration with
  | [] =>
      match qsan_management_ip configuration with
      | None => Raise TypeError
      | Some ip => OK [add_port ip]
      end
  | configured_portals => OK (add_port <$> configured_portals)
  end.

(** [except common.QSANApiException as e:
       raise exception.VolumeBackendAPIException(data=prefix + str(e))]. *)
Definition wrap_api_error {A} (prefix : string) (c : M A) : M A :=
  try_except c
    (on_QSANApiException
       (fun e => raise (VolumeBackendAPIException (prefix +:+ str_exn e)))).

(** [create_volume(self, volume)]. *)
Definition create_volume (volume : Volume.t) : M unit :=
  let volume_name := _get_volume_name volume in
  let pool_name := qsan_pool_name configuration in
  let thin := qsan_thin_provision configuration in
  wrap_api_error ("Failed to create volume " +:+ volume_name +:+ ": ")
    (common.create_volume transport pool_name volume_name (Volume.size volume) thin
     ;;; ret tt)%sr.

(** [delete_volume(self, volume)]. *)
Definition delete_volume (volume : Volume.t) : M unit :=
  let volume_name := _get_volume_name volume in
  wrap_api_error ("Failed to delete volume " +:+ volume_name +:+ ": ")
    (vol_info <- common.get_volume transport volume_name ;;
     match vol_info with
     | PNone => ret tt
     | _ => common.delete_volume transport volume_name ;;; ret tt
     end)%sr.

(** [extend_volume(self, volume, new_size)]. *)
Definition extend_volume (volume : Volume.t) (new_size : Z) : M unit :=
  let volume_name := _get_volume_name volume in
  wrap_api_error ("Failed to extend volume " +:+ volume_name +:+ ": ")
    (common.extend_volume transport volume_name new_size ;;; ret tt)%sr.

(** [create_export(self, context, volume, connector)]. *)
Definition create_export (volume : Volume.t) : M (gmap string pyval) :=
  let volume_name := _get_volume_name volume in
  let target_name := _get_target_name volume in
  wrap_api_error ("Failed to create export for volume " +:+ volume_name +:+ ": ")
    (target_info <- common.create_iscsi_target transport target_name None ;;
     target_id <- lift (py_get target_info "id" PNone) ;;
     target_iqn <- lift (py_get target_info "iqn" PNone) ;;
     mapping_info <- common.map_volume_to_target transport repr_container
                       volume_name target_id None ;;
     lun_id <- lift (py_get mapping_info "lun_id" (PInt 0)) ;;
     provider_auth <-
       (if qsan_chap_enabled configuration then
          match qsan_chap_username configuration, qsan_chap_password configuration with
          | Some chap_user, Some chap_pass =>
              if pystr.truthy chap_user && pystr.truthy chap_pass then
                common.set_target_chap transport repr_container
                  target_id chap_user chap_pass ;;;
                ret (PStr ("CHAP " +:+ chap_user +:+ " " +:+ chap_pass))
              else ret PNone
          | _, _ => ret PNone
          end
        else ret PNone) ;;
     portals <- lift _get_iscsi_portals ;;
     let provider_location :=
       format_location portals (common.py_str repr_container target_iqn)
                       (common.py_str repr_container lun_id) in
     ret (<["provider_auth" := provider_auth]>
          ({[ "provider_location" := PStr provider_location ]} : gmap string pyval)))%sr.

(** [remove_export(self, context, volume)]. *)
Definition remove_export (volume : Volume.t) : M unit :=
  let volume_name := _get_volume_name volume in
  let target_name := _get_target_name volume in
  wrap_api_error ("Failed to remove export for volume " +:+ volume_name +:+ ": ")
    (target_info <- common.get_iscsi_target_by_name transport target_name ;;
     match target_info with
     | PNone => ret tt
     | _ =>
         target_id <- lift (py_get target_info "id" PNone) ;;
         common.delete_iscsi_target transport repr_container target_id ;;; ret tt
     end)%sr.

(** [initialize_connection(self, volume, connector)].  The handler
    [except Exception] only logs: [save_and_reraise_exception] raises
    the exception again on leaving the [with] block. *)
Definition initialize_connection (volume : Volume.t)
           (connector : option (gmap string pyval)) : M (gmap string pyval) :=
  let target_name := _get_target_name volume in
  (try_except
    ((match connector with
      | Some conn =>
          match (0 <? size conn)%nat, conn !! "initiator" with
          | true, Some initiator_iqn =>
              target_info <- common.get_iscsi_target_by_name transport target_name ;;
              if py_truthy target_info then
                target_id <- lift (py_get target_info "id" PNone) ;;
                try_except
                  (common.add_initiator_to_target transport repr_container
                     target_id initiator_iqn ;;; ret tt)
                  (on_QSANApiException (fun _ => ret tt))
              else ret tt
          | _, _ => ret tt
          end
      | None => ret tt
      end) ;;;
     iscsi_properties <- lift (_get_iscsi_properties volume) ;;
     ret (<["data" := PDict iscsi_properties]>
          ({[ "driver_volume_type" := PStr "iscsi" ]} : gmap string pyval)))
    (on_Exception (fun e => raise e)))%sr.

(** [delete_snapshot(self, snapshot)]. *)
Definition delete_snapshot (snapshot : Snapshot.t) : M unit :=
  let volume_name := _get_volume_name (Snapshot.volume snapshot) in
  let snapshot_name := _get_snapshot_name snapshot in
  wrap_api_error ("Failed to delete snapshot " +:+ snapshot_name +:+ ": ")
    (snap_info <- common.get_snapshot transport volume_name snapshot_name ;;
     match snap_info with
     | PNone => ret tt
     | _ => common.delete_snapshot transport volume_name snapshot_name ;;; ret tt
     end)%sr.

(** [create_snapshot(self, snapshot)]. *)
Definition create_snapshot (snapshot : Snapshot.t) : M unit :=
  let volume_name := _get_volume_name (Snapshot.volume snapshot) in
  let snapshot_name := _get_snapshot_name snapshot in
  wrap_api_error ("Failed to create snapshot " +:+ snapshot_name +:+ ": ")
    (common.create_snapshot transport volume_name snapshot_name ;;; ret tt)%sr.

(** [create_volume_from_snapshot(self, volume, snapshot)]. *)
Definition create_volume_from_snapshot (volume : Volume.t) (snapshot : Snapshot.t)
  : M unit :=
  let src_volume_name := _get_volume_name (Snapshot.volume snapshot) in
  let snapshot_name := _get_snapshot_name snapshot in
  let new_volume_name := _get_volume_name volume in
  wrap_api_error "Failed to create volume from snapshot: "
    (common.create_volume_from_snapshot transport src_volume_name snapshot_name
       new_volume_name (Some (Volume.size volume)) ;;; ret tt)%sr.

(** [create_cloned_volume(self, volume, src_vref)]. *)
Definition create_cloned_volume (volume src_vref : Volume.t) : M unit :=
  let src_volume_name := _get_volume_name src_vref in
  let new_volume_name := _get_volume_name volume in
  wrap_api_error "Failed to clone volume: "
    (common.clone_volume transport src_volume_name new_volume_name None ;;;
     if Volume.size src_vref <? Volume.size volume then
       common.extend_volume transport new_volume_name (Volume.size volume) ;;; ret tt
     else ret tt)%sr.

(** [ensure_export(self, context, volume)]. *)
Definition ensure_export (volume : Volume.t) : M unit :=
  if pystr.truthy_opt (Volume.provider_location volume) then ret tt
  else (create_export volume ;;; ret tt)%sr.


(** [terminate(self)], with the client bound. *)
Definition terminate : M unit :=
  try_except (common.logout transport) (on_Exception (fun _ => ret tt)).


End Driver.

End qsan_iscsi.

(* ================================================================== *)
(** ** Vocabulary of the statements *)
(* ================================================================== *)

(** A text of decimal digits only. *)
Fixpoint all_digits (s : string) : bool :=
  match s with
  | EmptyString => true
  | String a r => pystr.is_digit a && all_digits r
  end.

(** A portal or an IQN can be stored when it contains neither of the two
    delimiters of the location text. *)
Definition storable_portal (p : string) : Prop :=
  pystr.contains " " p = false /\ pystr.contains ";" p = false.

(** The requests among a list of events, oldest first. *)
Definition requests_of (evs : list common.Event) : list common.Request :=
  omap (fun ev => match ev with common.EvRequest r => Some r | _ => None end) evs.

(** The sleeps among a list of events, oldest first. *)
Definition sleeps_of (evs : list common.Event) : list Z :=
  omap (fun ev => match ev with common.EvSleep n => Some n | _ => None end) evs.

(** What [k] failed attempts that were retried leave in the trace: each
    one its request and then the one-second sleep. *)
Fixpoint retried (req : common.Request) (k : nat) : list common.Event :=
  match k with
  | O => []
  | S k' => common.EvRequest req :: common.EvSleep 1 :: retried req k'
  end.

(** The response lets [_request] return [v]: the status raises nothing
    and the body is empty ([v] is [None]) or the JSON document [v]. *)
Definition delivers (response : common.Response) (v : pyval) : Prop :=
  common.raise_for_status response = None
  /\ (common.content response = common.EmptyBody /\ v = PNone
      \/ common.content response = common.JsonBody v).

(** The response carries an HTTP 4xx or 5xx status. *)
Definition http_error_status (response : common.Response) : Prop :=
  400 <= common.status_code response < 600.

(** The value of the [try] body of [_request] as a function of what the
    transport did. *)
Definition attempt_result (o : common.Outcome) : common.RequestException + pyval :=
  match o with
  | common.TransportRaises why => inl (common.ConnectivityError why)
  | common.Responds response =>
      match common.raise_for_status response with
      | Some e => inl e
      | None =>
          match common.content response with
          | common.EmptyBody => inr PNone
          | common.JsonBody v => inr v
          | common.MalformedBody why => inl (common.JSONDecodeError why)
          end
      end
  end.

(** The world after the events [evs]. *)
Definition push (w : common.World) (evs : list common.Event) : common.World :=
  {| common.self := common.self w; common.trace := common.trace w ++ evs |}.

(** Between [w] and [w'] the client object stayed the same and every
    request that went out satisfies [P]. *)
Definition only_requests (P : common.Request -> Prop) (w w' : common.World) : Prop :=
  exists evs, w' = push w evs /\ Forall P (requests_of evs).


(** A request that extends a volume to [s] gigabytes: a PUT whose body
    gives the new size in bytes. *)
Definition extends_volume (s : Z) (req : common.Request) : Prop :=
  common.req_method req = "PUT"
  /\ exists body : gmap string pyval,
       common.req_json req = Some body
       /\ body !! "size" = Some (PInt (s * 2 ^ 30)).

(** The DELETE requests among a list of events. *)
Definition delete_requests (evs : list common.Event) : list common.Request :=
  filter (fun req => common.req_method req = "DELETE") (requests_of evs).


(** [create_export] cut in two for the proofs: the steps up to the LUN
    mapping, which yield the target id, the IQN and the LUN, and the steps
    from the CHAP step on. *)
Definition export_prefix (transport : list common.Event -> common.Request -> common.Outcome)
           (repr_container : pyval -> string) (volume : Volume.t)
  : common.M (pyval * pyval * pyval) :=
  (target_info <- common.create_iscsi_target transport
                    (qsan_iscsi._get_target_name volume) None ;;
   target_id <- lift (py_get target_info "id" PNone) ;;
   target_iqn <- lift (py_get target_info "iqn" PNone) ;;
   mapping_info <- common.map_volume_to_target transport repr_container
                     (qsan_iscsi._get_volume_name volume) target_id None ;;
   lun_id <- lift (py_get mapping_info "lun_id" (PInt 0)) ;;
   ret (target_id, target_iqn, lun_id))%sr.

Definition export_suffix (transport : list common.Event -> common.Request -> common.Outcome)
           (repr_container : pyval -> string)
           (configuration : qsan_iscsi.Configuration)
           (ids : pyval * pyval * pyval) : common.M (gmap string pyval) :=
  let '(target_id, target_iqn, lun_id) := ids in
  (provider_auth <-
     (if qsan_iscsi.qsan_chap_enabled configuration then
        match qsan_iscsi.qsan_chap_username configuration,
              qsan_iscsi.qsan_chap_password configuration with
        | Some chap_user, Some chap_pass =>
            if pystr.truthy chap_user && pystr.truthy chap_pass then
              common.set_target_chap transport repr_container
                target_id chap_user chap_pass ;;;
              ret (PStr ("CHAP " +:+ chap_user +:+ " " +:+ chap_pass))
            else ret PNone
        | _, _ => ret PNone
        end
      else ret PNone) ;;
   portals <- lift (qsan_iscsi._get_iscsi_portals configuration) ;;
   let provider_location :=
     qsan_iscsi.format_location portals (common.py_str repr_container target_iqn)
                                (common.py_str repr_container lun_id) in
   ret (<["provider_auth" := provider_auth]>
        ({[ "provider_location" := PStr provider_location ]} : gmap string pyval)))%sr.

(* ================================================================== *)
(** ** Vocabulary of the further statements *)
(* ================================================================== *)

(** The one request that [login] sends. *)
Definition login_request (c : common.QSANClient) : common.Request :=
  common.make_post c (common.base_url c +:+ "/login") (common.login_data c).

(** The world once [login] has made sure that there is a session. *)
Definition ensure_session (w : common.World) : common.World :=
  match common.session (common.self w) with
  | Some _ => w
  | None =>
      {| common.self :=
           common.with_session (common.self w)
             (Some {| common.verify := common.ssl_verify (common.self w) |})
             (common.session_token (common.self w));
         common.trace := common.trace w |}
  end.

(** What the [try] body of [login] makes of the transport's outcome: the
    [RequestException] it raises or the document it decodes. *)
Definition login_answer (o : common.Outcome) : common.RequestException + pyval :=
  match o with
  | common.TransportRaises why => inl (common.ConnectivityError why)
  | common.Responds response =>
      match common.raise_for_status response with
      | Some e => inl e
      | None =>
          match common.content response with
          | common.EmptyBody =>
              inl (common.JSONDecodeError "Expecting value: line 1 column 1 (char 0)")
          | common.MalformedBody why => inl (common.JSONDecodeError why)
          | common.JsonBody v => inr v
          end
      end
  end.

(** The [Authorization] header that goes with a token. *)
Definition bearer (token : option string) : option string :=
  match token with
  | Some t => if pystr.truthy t then Some ("Bearer " +:+ t) else None
  | None => None
  end.

(** An array none of whose answers lets an attempt of [_request] succeed:
    the connection fails, the status is an error, or the body cannot be
    decoded. *)
Definition always_fails (transport : list common.Event -> common.Request -> common.Outcome)
  : Prop :=
  forall tr req, exists e, attempt_result (transport tr req) = inl e.

(** A POST whose body names the new volume and holds [size] exactly when
    [size] is given. *)
Definition clones_with_size (name : string) (size : option Z) (req : common.Request)
  : Prop :=
  common.req_method req = "POST"
  /\ exists body : gmap string pyval,
       common.req_json req = Some body
       /\ body !! "name" = Some (PStr name)
       /\ body !! "size" = (fun n => PInt (n * 2 ^ 30)) <$> size.

(** The size that [create_volume_from_snapshot] passes on: none for [None]
    and for [0]. *)
Definition given_size (size_gb : option Z) : option Z :=
  match size_gb with
  | Some n => if n =? 0 then None else Some n
  | None => None
  end.




(** The portal as [_get_iscsi_portals] hands it out: with [":3260"]
    appended unless a colon occurs in it. *)
Definition with_default_port (portal : string) : string :=
  if pystr.contains ":" portal then portal else portal +:+ ":3260".

(* ================================================================== *)
(** ** Sample clients, arrays and volumes *)
(* ================================================================== *)

Module sample.

(** The client of the unit tests, after a login. *)
Definition client : common.QSANClient :=
  common.with_session
    (common.__init__ "192.168.1.100" 443 "https" "admin" "password" false 60 3)
    (Some {| common.verify := false |}) (Some "fake-session-token-12345").

Definition world : common.World := {| common.self := client; common.trace := [] |}.

Definition answer (code : Z) (why : string) (body : common.Body) : common.Outcome :=
  common.Responds {| common.status_code := code; common.reason := why;
                     common.resp_url := EmptyString; common.content := body |}.

(** No connection, ever. *)
Definition unreachable : list common.Event -> common.Request -> common.Outcome :=
  fun _ _ => common.TransportRaises "Connection failed".

(** Two connection failures, then an answer. *)
Definition flaky : list common.Event -> common.Request -> common.Outcome :=
  fun tr _ =>
    if (length (requests_of tr) <? 2)%nat then common.TransportRaises "Connection failed"
    else answer 200 "OK" (common.JsonBody (PDict {[ "result" := PStr "success" ]})).

(** Every request is answered with status 500. *)
Definition broken : list common.Event -> common.Request -> common.Outcome :=
  fun _ _ => answer 500 "Internal Server Error" common.EmptyBody.

(** Every request is answered with status 404. *)
Definition empty_array : list common.Event -> common.Request -> common.Outcome :=
  fun _ _ => answer 404 "Not Found" common.EmptyBody.

(** Every request is answered with the same JSON object. *)
Definition talkative : list common.Event -> common.Request -> common.Outcome :=
  fun _ _ => answer 200 "OK" (common.JsonBody (PDict {[ "status" := PStr "ok" ]})).

(** An array that creates targets and maps volumes. *)
Definition array : list common.Event -> common.Request -> common.Outcome :=
  fun _ req =>
    if String.eqb (common.req_method req) "POST" then
      if String.eqb (common.req_url req) "https://192.168.1.100:443/api/iscsi/targets" then
        answer 200 "OK"
          (common.JsonBody
             (PDict (<["iqn" := PStr "iqn.2004-08.com.qsan:target-fake-id"]>
                     {[ "id" := PStr "target-001" ]})))
      else answer 200 "OK" (common.JsonBody (PDict {[ "lun_id" := PInt 0 ]}))
    else answer 200 "OK" common.EmptyBody.

Definition repr_container : pyval -> string := fun _ => "[...]".

Definition configuration (chap : bool) (user pass : option string)
  : qsan_iscsi.Configuration :=
  {| qsan_iscsi.qsan_management_ip := Some "192.168.1.100";
     qsan_iscsi.qsan_pool_name := Some "Pool-1";
     qsan_iscsi.qsan_iscsi_portals := ["192.168.1.101"; "192.168.1.102"];
     qsan_iscsi.qsan_chap_enabled := chap;
     qsan_iscsi.qsan_chap_username := user;
     qsan_iscsi.qsan_chap_password := pass;
     qsan_iscsi.qsan_thin_provision := true |}.

Definition volume (location : option string) : Volume.t :=
  {| Volume.id := "fake-id"; Volume.size := 10;
     Volume.provider_location := location; Volume.provider_auth := None |}.

Definition snapshot : Snapshot.t :=
  {| Snapshot.id := "fake-id"; Snapshot.volume := volume None |}.

Definition connector : gmap string pyval :=
  <["host" := PStr "fakehost"]>
  {[ "initiator" := PStr "iqn.1993-08.org.debian:01:604af6a341" ]}.

(** An array that answers every request with a session token. *)
Definition login_array : list common.Event -> common.Request -> common.Outcome :=
  fun _ _ =>
    answer 200 "OK"
      (common.JsonBody (PDict {[ "token" := PStr "fake-session-token-12345" ]})).

(** The client of the unit tests, before any login. *)
Definition fresh_client : common.QSANClient :=
  common.__init__ "192.168.1.100" 443 "https" "admin" "password" false 60 3.

Definition fresh_world : common.World :=
  {| common.self := fresh_client; common.trace := [] |}.


(** A volume that was exported. *)
Definition exported_volume : Volume.t :=
  volume (Some "192.168.1.101:3260 iqn.2004-08.com.qsan:target-fake-id 0").

End sample.

(* ================================================================== *)
(** ** Facts about strings *)
(* ================================================================== *)

Section StringFacts.

Import pystr.

Lemma append_nil_l (t : string) : EmptyString +:+ t = t.
Proof. reflexivity. Qed.

Lemma append_cons (a : ascii) (s t : string) :
  String a s +:+ t = String a (s +:+ t).
Proof. reflexivity. Qed.

Lemma append_assoc (s t u : string) : (s +:+ t) +:+ u = s +:+ (t +:+ u).
Proof.
  induction s as [|a s IH]; [reflexivity|].
  by rewrite !append_cons, IH.
Qed.

Lemma contains_app (c : ascii) (s t : string) :
  contains c (s +:+ t) = contains c s || contains c t.
Proof.
  induction s as [|a s IH]; [reflexivity|].
  rewrite append_cons. cbn. destruct (Ascii.eqb a c); [reflexivity|apply IH].
Qed.

Lemma split_nonempty (sep : ascii) (s : string) : split sep s <> [].
Proof.
  destruct s as [|a s]; cbn; [discriminate|].
  destruct (Ascii.eqb a sep); [discriminate|].
  destruct (split sep s); discriminate.
Qed.

(** A text without separator is a single field. *)
Lemma split_none (sep : ascii) (s : string) :
  contains sep s = false -> split sep s = [s].
Proof.
  induction s as [|a s IH]; [reflexivity|].
  cbn. destruct (Ascii.eqb a sep); [discriminate|].
  intros H. by rewrite (IH H).
Qed.

(** The first separator ends the first field. *)
Lemma split_app (sep : ascii) (s t : string) :
  contains sep s = false ->
  split sep (s +:+ String sep t) = s :: split sep t.
Proof.
  induction s as [|a s IH]; intros H.
  - rewrite append_nil_l. cbn. by rewrite Ascii.eqb_refl.
  - rewrite append_cons. cbn in *. destruct (Ascii.eqb a sep); [discriminate|].
    by rewrite (IH H).
Qed.

Lemma split_join (sep : ascii) (l : list string) :
  l <> [] ->
  Forall (fun x => contains sep x = false) l ->
  split sep (join (String sep EmptyString) l) = l.
Proof.
  intros Hne Hall. induction Hall as [|x l Hx Hall IH]; [done|].
  destruct l as [|y l].
  - cbn. by apply split_none.
  - change (join (String sep EmptyString) (x :: y :: l))
      with (x +:+ String sep EmptyString +:+ join (String sep EmptyString) (y :: l)).
    rewrite append_cons, append_nil_l.
    inversion Hall; subst.
    rewrite split_app by done. by rewrite IH.
Qed.

Lemma contains_join (c : ascii) (sep : string) (l : list string) :
  contains c sep = false ->
  Forall (fun x => contains c x = false) l ->
  contains c (join sep l) = false.
Proof.
  intros Hsep Hall. induction Hall as [|x l Hx Hall IH]; [reflexivity|].
  destruct l as [|y l]; [exact Hx|].
  change (join sep (x :: y :: l)) with (x +:+ sep +:+ join sep (y :: l)).
  by rewrite !contains_app, Hx, Hsep, IH.
Qed.

(** *** Decimal digits *)

Lemma digit_char_spec (d : Z) :
  0 <= d < 10 -> is_digit (digit_char d) = true /\ digit_val (digit_char d) = d.
Proof.
  intros Hd.
  assert (d = 0 \/ d = 1 \/ d = 2 \/ d = 3 \/ d = 4 \/ d = 5 \/ d = 6 \/ d = 7
          \/ d = 8 \/ d = 9) as Hcases by lia.
  repeat (destruct Hcases as [->|Hcases]; [split; reflexivity|]).
  subst d. split; reflexivity.
Qed.

Lemma is_digit_not_special (a : ascii) :
  is_digit a = true ->
  is_space a = false /\ Ascii.eqb a "-" = false /\ Ascii.eqb a "+" = false
  /\ Ascii.eqb a " " = false /\ Ascii.eqb a ";" = false.
Proof.
  destruct a as [[] [] [] [] [] [] [] []]; cbv; intros H;
    first [discriminate H | repeat split].
Qed.

Lemma digits_from_all_digits (fuel : nat) (n : Z) (tail : string) :
  0 <= n -> all_digits tail = true -> all_digits (digits_from fuel n tail) = true.
Proof.
  revert n tail. induction fuel as [|f IH]; intros n tail Hn Ht; [exact Ht|].
  assert (all_digits (String (digit_char (n `mod` 10)) tail) = true) as Ht'.
  { cbn [all_digits]. rewrite Ht.
    destruct (digit_char_spec (n `mod` 10)) as [-> _]; [|reflexivity].
    apply Z.mod_pos_bound. lia. }
  cbn [digits_from]. destruct (n <? 10); [exact Ht'|].
  apply IH; [|exact Ht']. apply Z.div_pos; lia.
Qed.

Lemma digits_from_nonempty (fuel : nat) (n : Z) (tail : string) :
  digits_from (S fuel) n tail <> EmptyString.
Proof.
  revert n tail. induction fuel as [|f IH]; intros n tail.
  - cbn. destruct (n <? 10); discriminate.
  - change (digits_from (S (S f)) n tail)
      with (if n <? 10 then String (digit_char (n `mod` 10)) tail
            else digits_from (S f) (n `div` 10) (String (digit_char (n `mod` 10)) tail)).
    destruct (n <? 10); [discriminate|apply IH].
Qed.

Lemma all_digits_contains (c : ascii) (s : string) :
  is_digit c = false -> all_digits s = true -> contains c s = false.
Proof.
  intros Hc. induction s as [|a s IH]; [reflexivity|].
  cbn. intros [Ha Hs]%andb_true_iff.
  destruct (Ascii.eqb_spec a c) as [->|_]; [congruence|by apply IH].
Qed.

Lemma lstrip_digits (s : string) : all_digits s = true -> lstrip s = s.
Proof.
  destruct s as [|a s]; [reflexivity|].
  cbn. intros [Ha _]%andb_true_iff.
  by destruct (is_digit_not_special a Ha) as [-> _].
Qed.

Lemma rstrip_digits (s : string) : all_digits s = true -> rstrip s = s.
Proof.
  induction s as [|a s IH]; [reflexivity|].
  cbn. intros [Ha Hs]%andb_true_iff. rewrite (IH Hs).
  destruct (is_digit_not_special a Ha) as [-> _]. by destruct s.
Qed.

Lemma parse_digits_from (f : nat) (n : Z) (tail : string) :
  0 <= n < 2 ^ Z.of_nat (S f) ->
  exists m : nat, forall acc b,
    parse_digits (digits_from (S f) n tail) acc b
    = parse_digits tail (acc * 10 ^ Z.of_nat m + n) true.
Proof.
  revert n tail. induction f as [|f IH]; intros n tail Hn.
  - exists 1%nat. intros acc b.
    change (2 ^ Z.of_nat 1) with 2 in Hn.
    assert ((n <? 10) = true) as Hlt by (apply Z.ltb_lt; lia).
    cbn [digits_from]. rewrite Hlt. cbn [parse_digits].
    rewrite Z.mod_small by lia.
    destruct (digit_char_spec n) as [-> ->]; [lia|].
    f_equal. change (10 ^ Z.of_nat 1) with 10. lia.
  - change (digits_from (S (S f)) n tail)
      with (if n <? 10 then String (digit_char (n `mod` 10)) tail
            else digits_from (S f) (n `div` 10) (String (digit_char (n `mod` 10)) tail)).
    destruct (Z.ltb_spec n 10) as [Hlt|Hge].
    + exists 1%nat. intros acc b. cbn [parse_digits].
      rewrite Z.mod_small by lia.
      destruct (digit_char_spec n) as [-> ->]; [lia|].
      f_equal. change (10 ^ Z.of_nat 1) with 10. lia.
    + destruct (IH (n `div` 10) (String (digit_char (n `mod` 10)) tail)) as [m Hm].
      { split; [apply Z.div_pos; lia|].
        rewrite (Nat2Z.inj_succ (S f)), Z.pow_succ_r in Hn by lia.
        apply Z.div_lt_upper_bound; lia. }
      exists (S m). intros acc b. rewrite Hm. cbn [parse_digits].
      destruct (digit_char_spec (n `mod` 10)) as [-> ->];
        [apply Z.mod_pos_bound; lia|].
      f_equal. rewrite (Nat2Z.inj_succ m), Z.pow_succ_r by lia.
      pose proof (Z.div_mod n 10). lia.
Qed.

Lemma str_nonneg_all_digits (n : Z) : 0 <= n -> all_digits (str_nonneg n) = true.
Proof. intros Hn. by apply digits_from_all_digits. Qed.

(** [int(str(n)) == n]. *)
Lemma to_int_of_int (n : Z) : 0 <= n -> to_int (of_int n) = Some n.
Proof.
  intros Hn. unfold of_int.
  assert ((n <? 0) = false) as -> by (apply Z.ltb_ge; lia).
  pose proof (str_nonneg_all_digits n Hn) as Hd.
  unfold to_int, strip. rewrite (lstrip_digits _ Hd), (rstrip_digits _ Hd).
  destruct (str_nonneg n) as [|a r] eqn:Hs.
  { by apply digits_from_nonempty in Hs. }
  cbn [all_digits] in Hd. apply andb_true_iff in Hd as [Ha _].
  destruct (is_digit_not_special a Ha) as (_ & -> & -> & _).
  rewrite <- Hs. unfold str_nonneg.
  destruct (parse_digits_from (Z.to_nat (Z.log2 n)) n EmptyString) as [m Hm].
  { split; [exact Hn|].
    rewrite Nat2Z.inj_succ, Z2Nat.id by apply Z.log2_nonneg.
    destruct (Z.eq_dec n 0) as [->|Hnz]; [reflexivity|].
    apply Z.log2_spec. lia. }
  rewrite Hm. cbn [parse_digits]. by rewrite Z.mul_0_l.
Qed.

Lemma of_int_no_space (n : Z) : 0 <= n -> contains " " (of_int n) = false.
Proof.
  intros Hn. unfold of_int.
  assert ((n <? 0) = false) as -> by (apply Z.ltb_ge; lia).
  apply all_digits_contains; [reflexivity|by apply str_nonneg_all_digits].
Qed.

End StringFacts.

(* ================================================================== *)
(** ** The export codec *)
(* ================================================================== *)

Section Codec.

Import pystr qsan_iscsi.

Lemma encode_location_split (portals : list string) (iqn : string) (lun : Z) :
  Forall storable_portal portals -> contains " " iqn = false -> 0 <= lun ->
  split " " (encode_location portals iqn lun)
  = [join ";" portals; iqn; of_int lun].
Proof.
  intros Hp Hiqn Hlun. unfold encode_location, format_location.
  rewrite !append_cons, !append_nil_l.
  rewrite split_app.
  2:{ apply contains_join; [reflexivity|].
      eapply Forall_impl; [exact Hp|]. by intros p [? _]. }
  rewrite split_app by exact Hiqn.
  rewrite split_none by (by apply of_int_no_space). reflexivity.
Qed.




Lemma parse_portals_nonempty (location : string) portals iqn lun :
  parse_provider_location location = OK (portals, iqn, lun) -> portals <> [].
Proof.
  unfold parse_provider_location.
  destruct (split " " location !! 0%nat) as [part0|]; [|discriminate].
  destruct (split " " location !! 1%nat); [|discriminate].
  destruct (split " " location !! 2%nat) as [part2|]; [|discriminate].
  destruct (to_int part2); [|discriminate].
  intros [= <- _ _]. apply split_nonempty.
Qed.



End Codec.

(* ================================================================== *)
(** ** The retrying request primitive *)
(* ================================================================== *)

Section RequestFacts.

Import common.

Variable transport : list Event -> Request -> Outcome.

Lemma push_nil (w : World) : push w [] = w.
Proof. destruct w. unfold push. cbn. by rewrite app_nil_r. Qed.

Lemma push_push (w : World) (evs1 evs2 : list Event) :
  push (push w evs1) evs2 = push w (evs1 ++ evs2).
Proof. unfold push. cbn. by rewrite app_assoc. Qed.

Lemma request_once_spec (req : Request) (w : World) :
  is_Some (session (self w)) ->
  request_once transport req w
  = (OK (attempt_result (transport (trace w) req)), push w [EvRequest req]).
Proof.
  intros [s Hs]. unfold request_once, bind, session_request. rewrite Hs.
  unfold attempt_result.
  destruct (transport (trace w) req) as [why|response]; [reflexivity|].
  destruct (raise_for_status response); [reflexivity|].
  by destruct (content response).
Qed.

Lemma request_once_no_session (req : Request) (w : World) :
  session (self w) = None ->
  request_once transport req w = (Raise AttributeError, w).
Proof.
  intros Hs. unfold request_once, bind, session_request. by rewrite Hs.
Qed.

Lemma raise_for_status_http_error (response : Response) :
  http_error_status response -> is_Some (raise_for_status response).
Proof.
  unfold http_error_status, raise_for_status. intros H.
  destruct (Z.leb_spec 400 (status_code response)); [|lia].
  destruct (Z.ltb_spec (status_code response) 500); cbn; [by eexists|].
  destruct (Z.leb_spec 500 (status_code response)); [|lia].
  destruct (Z.ltb_spec (status_code response) 600); cbn; [by eexists|lia].
Qed.

Lemma attempt_result_delivers (response : Response) (v : pyval) :
  delivers response v -> attempt_result (Responds response) = inr v.
Proof.
  intros [Hst [[Hc ->]|Hc]]; unfold attempt_result; by rewrite Hst, Hc.
Qed.

Lemma requests_of_app (evs1 evs2 : list Event) :
  requests_of (evs1 ++ evs2) = requests_of evs1 ++ requests_of evs2.
Proof. apply omap_app. Qed.

Lemma sleeps_of_app (evs1 evs2 : list Event) :
  sleeps_of (evs1 ++ evs2) = sleeps_of evs1 ++ sleeps_of evs2.
Proof. apply omap_app. Qed.

Lemma requests_of_retried (req : Request) (k : nat) :
  requests_of (retried req k) = replicate k req.
Proof. induction k as [|k IH]; [reflexivity|]. cbn. by rewrite <- IH. Qed.

Lemma sleeps_of_retried (req : Request) (k : nat) :
  sleeps_of (retried req k) = replicate k 1.
Proof. induction k as [|k IH]; [reflexivity|]. cbn. by rewrite <- IH. Qed.

(** [k] attempts in a row that fail while attempts remain: the loop goes
    on with the attempts that are left. *)
Lemma request_loop_retried (rc : Z) (req : Request) (k : nat) :
  forall (a n : Z) (w : World),
    is_Some (session (self w)) ->
    a + Z.of_nat k <= rc - 1 ->
    Z.of_nat k <= n ->
    (forall i : nat, (i < k)%nat ->
       exists e, attempt_result (transport (trace w ++ retried req i) req) = inl e) ->
    request_loop transport rc req (seqZ a n) w
    = request_loop transport rc req (seqZ (a + Z.of_nat k) (n - Z.of_nat k))
                   (push w (retried req k)).
Proof.
  induction k as [|k IH]; intros a n w Hs Ha Hn Hfail.
  - rewrite push_nil. f_equal. f_equal; lia.
  - rewrite (seqZ_cons a n) by lia.
    cbn [request_loop]. unfold bind at 1.
    rewrite request_once_spec by exact Hs.
    destruct (Hfail 0%nat) as [e He]; [lia|].
    cbn [retried] in He. rewrite app_nil_r in He. rewrite He.
    assert ((a <? rc - 1) = true) as -> by (apply Z.ltb_lt; lia).
    unfold bind, sleep, emit. cbn [self trace push].
    rewrite (IH (Z.succ a) (Z.pred n)); [| exact Hs | lia | lia |].
    + unfold push. cbn [self trace]. rewrite <- !app_assoc. cbn [app retried].
      do 2 f_equal; lia.
    + intros i Hi. destruct (Hfail (S i)) as [e' He']; [lia|].
      exists e'. cbn [self trace]. rewrite <- He'. cbn [retried].
      by rewrite <- !app_assoc.
Qed.

End RequestFacts.

Section RetryBudget.

Import common.

Variable transport : list Event -> Request -> Outcome.

Lemma request_loop_last (rc : Z) (req : Request) (a : Z) (w : World) :
  is_Some (session (self w)) ->
  request_loop transport rc req (seqZ a 1) w
  = match attempt_result (transport (trace w) req) with
    | inr v => (OK v, push w [EvRequest req])
    | inl e =>
        if a <? rc - 1 then (OK PNone, push w [EvRequest req; EvSleep 1])
        else (Raise (QSANApiException
                       ("QSAN API request failed: " +:+ str_RequestException e)),
              push w [EvRequest req])
    end.
Proof.
  intros Hs. rewrite (seqZ_cons a 1) by lia. change (Z.pred 1) with 0.
  change (seqZ (Z.succ a) 0) with (@nil Z).
  cbn [request_loop]. unfold bind at 1. rewrite request_once_spec by exact Hs.
  destruct (attempt_result (transport (trace w) req)) as [e|v]; [|reflexivity].
  destruct (a <? rc - 1); [|reflexivity].
  unfold bind, sleep, emit, ret, push. cbn [self trace].
  by rewrite <- app_assoc.
Qed.

(** Every attempt raises some [RequestException]: the budget is used up
    and the last exception is turned into a [QSANApiException]. *)
Lemma request_exhausts_budget (w : World) (method url : string)
      (data params : option (gmap string pyval)) (N : Z) :
  retry_count (self w) = N -> 1 <= N -> is_Some (session (self w)) ->
  let req := make_request (self w) method url data params in
  (forall i : nat, Z.of_nat i < N ->
     exists e, attempt_result (transport (trace w ++ retried req i) req) = inl e) ->
  exists e,
    _request transport method url data params w
    = (Raise (QSANApiException
                ("QSAN API request failed: " +:+ str_RequestException e)),
       push w (retried req (Z.to_nat (N - 1)) ++ [EvRequest req])).
Proof.
  intros HN Hpos Hs req Hfail.
  destruct (Hfail (Z.to_nat (N - 1))) as [e He]; [lia|].
  exists e. unfold _request, bind, get_self. rewrite HN. fold req.
  rewrite (request_loop_retried transport N req (Z.to_nat (N - 1)) 0 N w);
    [| exact Hs | lia | lia | intros i Hi; apply Hfail; lia ].
  replace (N - Z.of_nat (Z.to_nat (N - 1))) with 1 by lia.
  rewrite request_loop_last by exact Hs.
  cbn [push self trace]. rewrite He.
  assert ((0 + Z.of_nat (Z.to_nat (N - 1)) <? N - 1) = false) as ->
    by (apply Z.ltb_ge; lia).
  by rewrite push_push.
Qed.

(** [k] attempts raise, the next one returns [v]. *)
Lemma request_succeeds_after (w : World) (method url : string)
      (data params : option (gmap string pyval)) (N : Z) (k : nat) (v : pyval) :
  retry_count (self w) = N -> Z.of_nat k < N -> is_Some (session (self w)) ->
  let req := make_request (self w) method url data params in
  (forall i : nat, (i < k)%nat ->
     exists e, attempt_result (transport (trace w ++ retried req i) req) = inl e) ->
  attempt_result (transport (trace w ++ retried req k) req) = inr v ->
  _request transport method url data params w
  = (OK v, push w (retried req k ++ [EvRequest req])).
Proof.
  intros HN Hk Hs req Hfail Hok.
  unfold _request, bind, get_self. rewrite HN. fold req.
  rewrite (request_loop_retried transport N req k 0 N w);
    [| exact Hs | lia | lia | exact Hfail ].
  rewrite (seqZ_cons (0 + Z.of_nat k)) by lia.
  cbn [request_loop]. unfold bind at 1.
  rewrite request_once_spec by exact Hs.
  cbn [push self trace]. rewrite Hok. unfold ret. by rewrite push_push.
Qed.

(** C3: with [retry_count = N >= 1], a call whose attempts all fail with
    a connectivity error makes exactly [N] requests, sleeps one second
    after each of the first [N - 1], and raises [QSANApiException]; a
    call whose first [k < N] attempts fail so and whose next attempt is
    answered returns that answer after exactly [k + 1] requests and [k]
    one-second sleeps. *)
Theorem retry_budget (w : World) (method url : string)
        (data params : option (gmap string pyval)) (N : Z) :
  retry_count (self w) = N -> 1 <= N -> is_Some (session (self w)) ->
  let req := make_request (self w) method url data params in
  ((forall i : nat, Z.of_nat i < N ->
      exists why, transport (trace w ++ retried req i) req = TransportRaises why) ->
   exists message evs,
     _request transport method url data params w
     = (Raise (QSANApiException message), push w evs)
     /\ evs = retried req (Z.to_nat (N - 1)) ++ [EvRequest req]
     /\ Z.of_nat (length (requests_of evs)) = N
     /\ sleeps_of evs = replicate (Z.to_nat (N - 1)) 1)
  /\ (forall (k : nat) (response : Response) (v : pyval),
        Z.of_nat k < N ->
        (forall i : nat, (i < k)%nat ->
           exists why, transport (trace w ++ retried req i) req = TransportRaises why) ->
        transport (trace w ++ retried req k) req = Responds response ->
        delivers response v ->
        exists evs,
          _request transport method url data params w = (OK v, push w evs)
          /\ evs = retried req k ++ [EvRequest req]
          /\ length (requests_of evs) = S k
          /\ sleeps_of evs = replicate k 1).
Proof.
  intros HN Hpos Hs req. split.
  - intros Hfail.
    destruct (request_exhausts_budget w method url data params N HN Hpos Hs)
      as [e He].
    { intros i Hi. destruct (Hfail i Hi) as [why Hwhy].
      exists (ConnectivityError why). fold req. by rewrite Hwhy. }
    eexists _, _. split; [exact He|]. split; [reflexivity|]. fold req.
    rewrite requests_of_app, sleeps_of_app, requests_of_retried, sleeps_of_retried.
    cbn. rewrite app_nil_r, length_app, length_replicate. cbn. split; [lia|done].
  - intros k response v Hk Hfail Hresp Hdel.
    eexists. split.
    { apply (request_succeeds_after w method url data params N k v HN Hk Hs).
      - intros i Hi. destruct (Hfail i Hi) as [why Hwhy].
        exists (ConnectivityError why). fold req. by rewrite Hwhy.
      - fold req. rewrite Hresp. by apply attempt_result_delivers. }
    split; [reflexivity|]. fold req.
    rewrite requests_of_app, sleeps_of_app, requests_of_retried, sleeps_of_retried.
    cbn. rewrite app_nil_r, length_app, length_replicate. cbn. split; [lia|done].
Qed.

(** C1 (as amended): an HTTP 4xx/5xx answer is handled like a connection
    failure.  With [retry_count = N >= 1], a call whose attempts are all
    answered with such a status makes exactly [N] requests, sleeping one
    second after each of the first [N - 1], and then raises
    [QSANApiException]; it stops after one request exactly when
    [N = 1]. *)
Theorem http_status_errors_use_the_budget (w : World) (method url : string)
        (data params : option (gmap string pyval)) (N : Z) :
  retry_count (self w) = N -> 1 <= N -> is_Some (session (self w)) ->
  let req := make_request (self w) method url data params in
  (forall i : nat, Z.of_nat i < N ->
     exists response,
       transport (trace w ++ retried req i) req = Responds response
       /\ http_error_status response) ->
  exists message evs,
    _request transport method url data params w
    = (Raise (QSANApiException message), push w evs)
    /\ evs = retried req (Z.to_nat (N - 1)) ++ [EvRequest req]
    /\ Z.of_nat (length (requests_of evs)) = N
    /\ sleeps_of evs = replicate (Z.to_nat (N - 1)) 1
    /\ (length (requests_of evs) = 1%nat <-> N = 1).
Proof.
  intros HN Hpos Hs req Hfail.
  destruct (request_exhausts_budget w method url data params N HN Hpos Hs)
    as [e He].
  { intros i Hi. destruct (Hfail i Hi) as (response & Hresp & Hstatus).
    fold req. rewrite Hresp. unfold attempt_result.
    destruct (raise_for_status_http_error response Hstatus) as [e' ->].
    by exists e'. }
  eexists _, _. split; [exact He|]. split; [reflexivity|]. fold req.
  rewrite requests_of_app, sleeps_of_app, requests_of_retried, sleeps_of_retried.
  cbn. rewrite app_nil_r, length_app, length_replicate. cbn.
  repeat split; [lia | lia | lia].
Qed.

End RetryBudget.

(* ================================================================== *)
(** ** What one client call can do to the world *)
(* ================================================================== *)

Section Effects.

Import common.

Variable transport : list Event -> Request -> Outcome.

Lemma self_push (w : World) (evs : list Event) : self (push w evs) = self w.
Proof. reflexivity. Qed.

Lemma only_refl (P : Request -> Prop) (w : World) : only_requests P w w.
Proof. exists []. by rewrite push_nil. Qed.

Lemma only_trans (P : Request -> Prop) (w1 w2 w3 : World) :
  only_requests P w1 w2 -> only_requests P w2 w3 -> only_requests P w1 w3.
Proof.
  intros (evs1 & -> & H1) (evs2 & -> & H2). exists (evs1 ++ evs2).
  rewrite push_push. split; [reflexivity|].
  rewrite requests_of_app. by apply Forall_app.
Qed.

Lemma only_weaken (P Q : Request -> Prop) (w w' : World) :
  (forall req, P req -> Q req) -> only_requests P w w' -> only_requests Q w w'.
Proof.
  intros HPQ (evs & -> & H). exists evs. split; [reflexivity|].
  eapply Forall_impl; [exact H|exact HPQ].
Qed.

Lemma only_self (P : Request -> Prop) (w w' : World) :
  only_requests P w w' -> self w' = self w.
Proof. by intros (evs & -> & _). Qed.

Lemma request_loop_only (rc : Z) (req : Request) (attempts : list Z) (w : World) :
  only_requests (fun r => r = req) w (request_loop transport rc req attempts w).2.
Proof.
  revert w. induction attempts as [|attempt rest IH]; intros w.
  { apply only_refl. }
  cbn [request_loop]. unfold bind at 1.
  destruct (session (self w)) as [s|] eqn:Hs.
  2:{ rewrite request_once_no_session by exact Hs. apply only_refl. }
  rewrite request_once_spec by (by eexists).
  assert (only_requests (fun r => r = req) w (push w [EvRequest req])) as Hone.
  { exists [EvRequest req]. split; [reflexivity|]. by repeat constructor. }
  destruct (attempt_result (transport (trace w) req)) as [e|v]; [|exact Hone].
  destruct (attempt <? rc - 1); [|exact Hone].
  unfold bind, sleep, emit. cbn [self trace push].
  eapply only_trans; [|apply IH].
  exists [EvRequest req; EvSleep 1]. unfold push. cbn [self trace].
  rewrite <- app_assoc. split; [reflexivity|]. by repeat constructor.
Qed.

(** A call of [_request] leaves the client object alone and sends nothing
    but its own request, possibly several times. *)
Lemma _request_only (method url : string) (data params : option (gmap string pyval))
      (w : World) :
  only_requests (fun r => r = make_request (self w) method url data params)
                w (_request transport method url data params w).2.
Proof. unfold _request, bind, get_self. apply request_loop_only. Qed.



(** A value other than [None] comes out of [_request] only after a
    request was sent, so there is a session and the budget is positive. *)
Lemma _request_value (method url : string) (data params : option (gmap string pyval))
      (w w' : World) (v : pyval) :
  _request transport method url data params w = (OK v, w') ->
  v <> PNone ->
  is_Some (session (self w)) /\ 1 <= retry_count (self w).
Proof.
  unfold _request, bind, get_self. intros Hrun Hv.
  destruct (Z.le_gt_cases 1 (retry_count (self w))) as [Hrc|Hrc].
  2:{ rewrite seqZ_nil in Hrun by lia. cbn [request_loop] in Hrun.
      unfold ret in Hrun. congruence. }
  split; [|exact Hrc].
  rewrite (seqZ_cons 0) in Hrun by lia. cbn [request_loop] in Hrun.
  unfold bind at 1 in Hrun.
  destruct (session (self w)) as [s|] eqn:Hs; [by eexists|].
  rewrite request_once_no_session in Hrun by exact Hs. discriminate.
Qed.

(** With a session and a positive budget the request is sent at least
    once, and first of all. *)
Lemma _request_sends (method url : string) (data params : option (gmap string pyval))
      (w : World) :
  is_Some (session (self w)) -> 1 <= retry_count (self w) ->
  exists evs,
    (_request transport method url data params w).2
    = push w (EvRequest (make_request (self w) method url data params) :: evs).
Proof.
  intros Hs Hrc. unfold _request, bind, get_self.
  rewrite (seqZ_cons 0) by lia. cbn [request_loop]. unfold bind at 1.
  rewrite request_once_spec by exact Hs.
  set (req := make_request (self w) method url data params).
  destruct (attempt_result (transport (trace w) req)) as [e|v].
  2:{ by exists []. }
  destruct (0 <? retry_count (self w) - 1).
  2:{ by exists []. }
  unfold bind, sleep, emit. cbn [self trace push].
  destruct (request_loop_only (retry_count (self w)) req
              (seqZ (Z.succ 0) (Z.pred (retry_count (self w))))
              {| self := self w; trace := (trace w ++ [EvRequest req]) ++ [EvSleep 1] |})
    as (evs & Hevs & _).
  exists (EvSleep 1 :: evs).
  match goal with |- ?x.2 = _ => destruct x as [r w'] end.
  cbn [snd] in *. rewrite Hevs. unfold push. cbn [self trace].
  by rewrite <- !app_assoc.
Qed.

End Effects.

(* ================================================================== *)
(** ** Logout *)
(* ================================================================== *)

Section Logout.

Import common.

Variable transport : list Event -> Request -> Outcome.

(** C8: [logout] does nothing when there is no session or no token.
    Otherwise it sends the logout request and, whatever comes of that
    request (a value or any exception), it returns normally with both the
    token and the session cleared; nothing else of the client changes. *)
Theorem logout_never_fails (w : World) :
  (session (self w) = None \/ session_token (self w) = None ->
   logout transport w = (OK tt, w))
  /\ (is_Some (session (self w)) -> is_Some (session_token (self w)) ->
      forall (r : result pyval) (w1 : World),
        _request transport "POST" (base_url (self w) +:+ "/logout") None None w = (r, w1) ->
        logout transport w = (OK tt, clear_session w1)
        /\ session (self (clear_session w1)) = None
        /\ session_token (self (clear_session w1)) = None
        /\ trace (clear_session w1) = trace w1).
Proof.
  split.
  - intros Hnone. unfold logout, bind, get_self.
    destruct (session (self w)), (session_token (self w)), Hnone; done.
  - intros [s Hs] [t Ht] r w1 Hrun. unfold logout, bind at 1, get_self.
    rewrite Hs, Ht. unfold try_finally, try_except, bind. rewrite Hrun.
    destruct r as [v|e]; done.
Qed.

End Logout.

(* ================================================================== *)
(** ** Volume sizes *)
(* ================================================================== *)

Section Monad.

Context {S A : Type}.

Lemma bind_ret_world {B} (c : SR S A) (b : B) (s : S) :
  (bind c (fun _ => ret b) s).2 = (c s).2.
Proof. unfold bind, ret. by destruct (c s) as [[a|e] s']. Qed.

Lemma try_except_ret_world (c : SR S A) (a : A) (s : S) :
  (try_except c (on_QSANApiException (fun _ => ret a)) s).2 = (c s).2.
Proof.
  unfold try_except, on_QSANApiException, ret.
  by destruct (c s) as [[a'|[]] s'].
Qed.

Lemma try_except_raise_world (c : SR S A) (f : exn -> exn) (s : S) :
  (try_except c (on_QSANApiException (fun e => raise (f e))) s).2 = (c s).2.
Proof.
  unfold try_except, on_QSANApiException, raise.
  by destruct (c s) as [[a'|[]] s'].
Qed.

Lemma bind_assoc {B C} (c : SR S A) (k1 : A -> SR S B) (k2 : B -> SR S C) (s : S) :
  bind (bind c k1) k2 s = bind c (fun a => bind (k1 a) k2) s.
Proof. unfold bind. by destruct (c s) as [[a|e] s']. Qed.

Lemma bind_ext {B} (c : SR S A) (k k' : A -> SR S B) (s : S) :
  (forall a s', k a s' = k' a s') -> bind c k s = bind c k' s.
Proof. intros H. unfold bind. destruct (c s) as [[a|e] s']; [apply H|reflexivity]. Qed.

Lemma try_except_ext (c c' : SR S A) (h : exn -> option (SR S A)) (s : S) :
  c s = c' s -> try_except c h s = try_except c' h s.
Proof. intros H. unfold try_except. by rewrite H. Qed.

Lemma bind_OK {B} (c : SR S A) (k : A -> SR S B) (s s' : S) (a : A) :
  c s = (OK a, s') -> bind c k s = k a s'.
Proof. intros H. unfold bind. by rewrite H. Qed.



Lemma try_reraise (c : SR S A) (s : S) :
  try_except c (on_Exception (fun e => raise e)) s = c s.
Proof. unfold try_except, on_Exception, raise. by destruct (c s) as [[a|e] s']. Qed.

End Monad.

Section Sizes.

Import common.

Variable transport : list Event -> Request -> Outcome.
Variable configuration : qsan_iscsi.Configuration.


Lemma extend_volume_only (volume_name : string) (s : Z) (w : World) :
  only_requests (extends_volume s) w (extend_volume transport volume_name s w).2.
Proof.
  unfold extend_volume, bind at 1, get_self.
  eapply only_weaken; [|apply _request_only].
  intros req ->. split; [reflexivity|]. eexists. split; [reflexivity|].
  by simplify_map_eq.
Qed.


End Sizes.

(* ================================================================== *)
(** ** Idempotent teardown *)
(* ================================================================== *)

Section Teardown.

Import common.

Variable transport : list Event -> Request -> Outcome.
Variable repr_container : pyval -> string.

Lemma only_get_no_delete (w w' : World) :
  only_requests (fun req => req_method req = "GET") w w' ->
  exists evs, w' = push w evs /\ delete_requests evs = [].
Proof.
  intros (evs & -> & Hall). exists evs. split; [reflexivity|].
  unfold delete_requests. induction Hall as [|req reqs Hreq Hall IH]; [reflexivity|].
  rewrite filter_cons_False; [exact IH|]. rewrite Hreq. discriminate.
Qed.

Lemma _request_get_only (url : string) (params : option (gmap string pyval))
      (w : World) :
  only_requests (fun req => req_method req = "GET") w
                (_request transport "GET" url None params w).2.
Proof. eapply only_weaken; [|apply _request_only]. by intros req ->. Qed.

Lemma get_volume_only (volume_name : string) (w : World) :
  only_requests (fun req => req_method req = "GET") w
                (get_volume transport volume_name w).2.
Proof.
  unfold get_volume, bind at 1, get_self.
  rewrite try_except_ret_world. apply _request_get_only.
Qed.

Lemma get_snapshot_only (volume_name snapshot_name : string) (w : World) :
  only_requests (fun req => req_method req = "GET") w
                (get_snapshot transport volume_name snapshot_name w).2.
Proof.
  unfold get_snapshot, bind at 1, get_self.
  rewrite try_except_ret_world. apply _request_get_only.
Qed.

Lemma get_iscsi_target_by_name_only (target_name : string) (w : World) :
  only_requests (fun req => req_method req = "GET") w
                (get_iscsi_target_by_name transport target_name w).2.
Proof.
  unfold get_iscsi_target_by_name, bind at 1, get_self.
  rewrite try_except_ret_world. unfold bind at 1.
  pose proof (_request_get_only (base_url (self w) +:+ "/iscsi/targets")
                (Some {[ "name" := PStr target_name ]}) w) as Hget.
  destruct (_request transport "GET" _ None _ w) as [[result|e] w1]; [|exact Hget].
  destruct (py_truthy result); [|exact Hget].
  unfold bind, lift. destruct (py_len result) as [n|e]; [|exact Hget].
  destruct (0 <? n); exact Hget.
Qed.

(** C5: when the presence check reports the volume absent, [delete_volume]
    returns normally and nothing but that check went out: no DELETE
    request at all.  The same for [delete_snapshot]. *)
Theorem delete_of_absent_is_noop (w : World) :
  (forall (volume : Volume.t) (w1 : World),
     get_volume transport (qsan_iscsi._get_volume_name volume) w = (OK PNone, w1) ->
     qsan_iscsi.delete_volume transport volume w = (OK tt, w1)
     /\ exists evs, w1 = push w evs /\ delete_requests evs = [])
  /\ (forall (snapshot : Snapshot.t) (w1 : World),
        get_snapshot transport
          (qsan_iscsi._get_volume_name (Snapshot.volume snapshot))
          (qsan_iscsi._get_snapshot_name snapshot) w = (OK PNone, w1) ->
        qsan_iscsi.delete_snapshot transport snapshot w = (OK tt, w1)
        /\ exists evs, w1 = push w evs /\ delete_requests evs = []).
Proof.
  split.
  - intros volume w1 Hget. split.
    + unfold qsan_iscsi.delete_volume, qsan_iscsi.wrap_api_error, try_except, bind.
      by rewrite Hget.
    + apply only_get_no_delete.
      pose proof (get_volume_only (qsan_iscsi._get_volume_name volume) w) as H.
      by rewrite Hget in H.
  - intros snapshot w1 Hget. split.
    + unfold qsan_iscsi.delete_snapshot, qsan_iscsi.wrap_api_error, try_except, bind.
      by rewrite Hget.
    + apply only_get_no_delete.
      pose proof (get_snapshot_only
                    (qsan_iscsi._get_volume_name (Snapshot.volume snapshot))
                    (qsan_iscsi._get_snapshot_name snapshot) w) as H.
      by rewrite Hget in H.
Qed.

(** C6: when the lookup by the deterministic target name reports no
    target, [remove_export] returns normally and nothing but that lookup
    went out: no DELETE request at all.  Removing twice, or removing what
    was never exported, therefore succeeds. *)
Theorem remove_export_of_absent_is_noop (w : World) (volume : Volume.t) (w1 : World) :
  get_iscsi_target_by_name transport (qsan_iscsi._get_target_name volume) w
  = (OK PNone, w1) ->
  qsan_iscsi.remove_export transport repr_container volume w = (OK tt, w1)
  /\ exists evs, w1 = push w evs /\ delete_requests evs = [].
Proof.
  intros Hget. split.
  - unfold qsan_iscsi.remove_export, qsan_iscsi.wrap_api_error, try_except, bind.
    by rewrite Hget.
  - apply only_get_no_delete.
    pose proof (get_iscsi_target_by_name_only (qsan_iscsi._get_target_name volume) w) as H.
    by rewrite Hget in H.
Qed.

End Teardown.

(* ================================================================== *)
(** ** CHAP gating in [create_export] *)
(* ================================================================== *)

Section ChapGating.

Import common.

Variable transport : list Event -> Request -> Outcome.
Variable repr_container : pyval -> string.
Variable configuration : qsan_iscsi.Configuration.

Lemma _request_post_only (url : string) (data : option (gmap string pyval))
      (w : World) :
  only_requests (fun req => req_method req = "POST") w
                (_request transport "POST" url data None w).2.
Proof. eapply only_weaken; [|apply _request_only]. by intros req ->. Qed.


Lemma map_volume_to_target_only (volume_name : string) (target_id : pyval) (w : World) :
  only_requests (fun req => req_method req = "POST") w
    (map_volume_to_target transport repr_container volume_name target_id None w).2.
Proof. unfold map_volume_to_target, bind at 1, get_self. apply _request_post_only. Qed.


Lemma create_export_split (volume : Volume.t) (w : World) :
  qsan_iscsi.create_export transport repr_container configuration volume w
  = qsan_iscsi.wrap_api_error
      ("Failed to create export for volume "
       +:+ qsan_iscsi._get_volume_name volume +:+ ": ")
      (ids <- export_prefix transport repr_container volume ;;
       export_suffix transport repr_container configuration ids)%sr w.
Proof.
  unfold qsan_iscsi.create_export, qsan_iscsi.wrap_api_error.
  apply try_except_ext. unfold export_prefix.
  repeat (rewrite bind_assoc; apply bind_ext; intros ? ?).
  reflexivity.
Qed.

Lemma wrap_api_error_world {A} (prefix : string) (c : M A) (w : World) :
  (qsan_iscsi.wrap_api_error prefix c w).2 = (c w).2.
Proof. unfold qsan_iscsi.wrap_api_error. apply try_except_raise_world. Qed.

Lemma wrap_api_error_value {A} (prefix : string) (c : M A) (w w' : World) (a : A) :
  qsan_iscsi.wrap_api_error prefix c w = (OK a, w') <-> c w = (OK a, w').
Proof.
  unfold qsan_iscsi.wrap_api_error, try_except, on_QSANApiException, raise.
  destruct (c w) as [[a'|[]] w1]; split; congruence.
Qed.

(** The steps before the CHAP step return only after the array has
    answered, so there is a session and the retry budget is positive. *)
Lemma export_prefix_value (volume : Volume.t) (w w2 : World) ids :
  export_prefix transport repr_container volume w = (OK ids, w2) ->
  is_Some (session (self w)) /\ 1 <= retry_count (self w).
Proof.
  unfold export_prefix, bind at 1.
  destruct (create_iscsi_target transport _ None w) as [[target_info|e] w1] eqn:H1;
    [|discriminate].
  unfold bind at 1, lift at 1.
  destruct target_info; try discriminate. intros _.
  unfold create_iscsi_target, bind at 1, get_self in H1.
  by eapply _request_value.
Qed.




End ChapGating.

(* ================================================================== *)
(** ** Connecting a volume that was never exported *)
(* ================================================================== *)

Section Connect.

Import common.

Variable transport : list Event -> Request -> Outcome.
Variable repr_container : pyval -> string.




End Connect.

(* ================================================================== *)
(** ** Scenarios *)
(* ================================================================== *)

Section Scenarios.

Import common.

Example parse_spec_scenario :
  qsan_iscsi.parse_provider_location
    "10.0.0.1:3260;10.0.0.2:3260 iqn.2004-08.com.qsan:t1 0"
  = OK (["10.0.0.1:3260"; "10.0.0.2:3260"], "iqn.2004-08.com.qsan:t1", 0).
Proof. reflexivity. Qed.

Example encode_spec_scenario :
  qsan_iscsi.encode_location ["10.0.0.1:3260"; "10.0.0.2:3260"]
                             "iqn.2004-08.com.qsan:t1" 0
  = "10.0.0.1:3260;10.0.0.2:3260 iqn.2004-08.com.qsan:t1 0".
Proof. reflexivity. Qed.

Example of_int_examples :
  pystr.of_int 0 = "0" /\ pystr.of_int 1234567890 = "1234567890"
  /\ pystr.of_int (-42) = "-42".
Proof. repeat split; reflexivity. Qed.

Example to_int_examples :
  pystr.to_int " 1_000 " = Some 1000 /\ pystr.to_int "-7" = Some (-7)
  /\ pystr.to_int "b" = None /\ pystr.to_int "1__0" = None
  /\ pystr.to_int EmptyString = None.
Proof. repeat split; reflexivity. Qed.

Example split_examples :
  pystr.split " " EmptyString = [EmptyString] /\ pystr.split " " "a  b" = ["a"; EmptyString; "b"]
  /\ pystr.split ";" "p1;p2" = ["p1"; "p2"] /\ pystr.join ";" ["p1"; "p2"] = "p1;p2".
Proof. repeat split; reflexivity. Qed.

Example portals_get_default_port :
  qsan_iscsi._get_iscsi_portals (sample.configuration false None None)
  = OK ["192.168.1.101:3260"; "192.168.1.102:3260"].
Proof. reflexivity. Qed.

(** The two retry tests of the client: three connection failures exhaust
    a budget of three; two failures and an answer return the answer at the
    third request. *)
Lemma retry_budget_witness :
  (exists message evs,
     _request sample.unreachable "GET" "http://test/api/test" None None sample.world
     = (Raise (QSANApiException message), push sample.world evs)
     /\ length (requests_of evs) = 3%nat /\ sleeps_of evs = [1; 1])
  /\ (exists evs,
        _request sample.flaky "GET" "http://test/api/test" None None sample.world
        = (OK (PDict {[ "result" := PStr "success" ]}), push sample.world evs)
        /\ length (requests_of evs) = 3%nat /\ sleeps_of evs = [1; 1]).
Proof.
  split.
  - destruct (retry_budget sample.unreachable sample.world
                "GET" "http://test/api/test" None None 3
                eq_refl ltac:(lia) (ex_intro _ _ eq_refl)) as [Hall _].
    destruct Hall as (message & evs & Hrun & _ & Hn & Hsleeps).
    { intros i _. by eexists. }
    exists message, evs. split; [exact Hrun|]. split; [lia|exact Hsleeps].
  - destruct (retry_budget sample.flaky sample.world
                "GET" "http://test/api/test" None None 3
                eq_refl ltac:(lia) (ex_intro _ _ eq_refl)) as [_ Hsome].
    destruct (Hsome 2%nat
                {| status_code := 200; reason := "OK"; resp_url := EmptyString;
                   content := JsonBody (PDict {[ "result" := PStr "success" ]}) |}
                (PDict {[ "result" := PStr "success" ]}))
      as (evs & Hrun & _ & Hn & Hsleeps).
    + lia.
    + intros i Hi. destruct i as [|[|i]]; [by eexists|by eexists|lia].
    + reflexivity.
    + split; [reflexivity|by right].
    + exists evs. split; [exact Hrun|]. split; [exact Hn|exact Hsleeps].
Defined.

(** C1 (as stated) fails: with a budget of three, an array that answers
    every request with status 500 is asked three times, not once. *)
Lemma http_status_error_is_retried :
  let run := _request sample.broken "GET" "http://test/api/test" None None sample.world in
  (forall tr req, exists response,
      sample.broken tr req = Responds response /\ http_error_status response)
  /\ (exists message, run.1 = Raise (QSANApiException message))
  /\ length (requests_of (trace run.2)) = 3%nat
  /\ length (requests_of (trace run.2)) <> 1%nat.
Proof.
  split; [|split; [|split]].
  - intros tr req. eexists. split; [reflexivity|]. unfold http_error_status. cbn. lia.
  - eexists. vm_compute. reflexivity.
  - vm_compute. reflexivity.
  - vm_compute. discriminate.
Qed.

Lemma http_status_errors_use_the_budget_witness :
  exists message evs,
    _request sample.broken "GET" "http://test/api/test" None None sample.world
    = (Raise (QSANApiException message), push sample.world evs)
    /\ length (requests_of evs) = 3%nat.
Proof.
  destruct (http_status_errors_use_the_budget sample.broken sample.world
              "GET" "http://test/api/test" None None 3
              eq_refl ltac:(lia) (ex_intro _ _ eq_refl))
    as (message & evs & Hrun & _ & Hn & _).
  { intros i _. eexists. split; [reflexivity|]. unfold http_error_status. cbn. lia. }
  exists message, evs. split; [exact Hrun|lia].
Defined.

(** Logging out of an unreachable array clears the session all the same. *)
Lemma logout_never_fails_witness :
  exists w',
    logout sample.unreachable sample.world = (OK tt, w')
    /\ session (self w') = None /\ session_token (self w') = None
    /\ length (requests_of (trace w')) = 3%nat.
Proof.
  destruct (logout_never_fails sample.unreachable sample.world) as [_ Hclear].
  destruct (Hclear (ex_intro _ _ eq_refl) (ex_intro _ _ eq_refl)
              (_request sample.unreachable "POST"
                 (base_url (self sample.world) +:+ "/logout") None None sample.world).1
              (_request sample.unreachable "POST"
                 (base_url (self sample.world) +:+ "/logout") None None sample.world).2)
    as (Hrun & Hs & Ht & Htrace).
  { by destruct (_request sample.unreachable "POST" _ None None sample.world). }
  eexists. split; [exact Hrun|]. split; [exact Hs|]. split; [exact Ht|].
  rewrite Htrace. vm_compute. reflexivity.
Defined.


(** Deleting a volume and a snapshot that the array does not have. *)
Lemma delete_of_absent_is_noop_witness :
  (exists w1 evs,
     qsan_iscsi.delete_volume sample.empty_array (sample.volume None) sample.world
     = (OK tt, w1)
     /\ w1 = push sample.world evs /\ delete_requests evs = [])
  /\ (exists w1 evs,
        qsan_iscsi.delete_snapshot sample.empty_array sample.snapshot sample.world
        = (OK tt, w1)
        /\ w1 = push sample.world evs /\ delete_requests evs = []).
Proof.
  destruct (delete_of_absent_is_noop sample.empty_array sample.world)
    as [Hvolume Hsnapshot].
  split.
  - destruct (Hvolume (sample.volume None)
                (get_volume sample.empty_array
                   (qsan_iscsi._get_volume_name (sample.volume None)) sample.world).2)
      as (Hrun & evs & Hw1 & Hnone).
    { vm_compute. reflexivity. }
    eexists _, evs. split; [exact Hrun|]. split; [exact Hw1|exact Hnone].
  - destruct (Hsnapshot sample.snapshot
                (get_snapshot sample.empty_array
                   (qsan_iscsi._get_volume_name (Snapshot.volume sample.snapshot))
                   (qsan_iscsi._get_snapshot_name sample.snapshot) sample.world).2)
      as (Hrun & evs & Hw1 & Hnone).
    { vm_compute. reflexivity. }
    eexists _, evs. split; [exact Hrun|]. split; [exact Hw1|exact Hnone].
Defined.

(** Removing an export that the array does not have. *)
Lemma remove_export_of_absent_is_noop_witness :
  exists w1 evs,
    qsan_iscsi.remove_export sample.empty_array sample.repr_container
                             (sample.volume None) sample.world
    = (OK tt, w1)
    /\ w1 = push sample.world evs /\ delete_requests evs = [].
Proof.
  destruct (remove_export_of_absent_is_noop sample.empty_array sample.repr_container
              sample.world (sample.volume None)
              (get_iscsi_target_by_name sample.empty_array
                 (qsan_iscsi._get_target_name (sample.volume None)) sample.world).2)
    as (Hrun & evs & Hw1 & Hnone).
  { vm_compute. reflexivity. }
  eexists _, evs. split; [exact Hrun|]. split; [exact Hw1|exact Hnone].
Defined.





End Scenarios.

(* ================================================================== *)
(** ** The request primitive at its edges *)
(* ================================================================== *)

Section RequestShape.

Import common.

Variable transport : list Event -> Request -> Outcome.


(** X1: a client whose retry budget is zero or negative sends nothing and
    returns [None] as if the call had succeeded; a client without session
    raises [AttributeError] before anything is sent. *)
Theorem request_without_budget_or_session (w : World) (method url : string)
        (data params : option (gmap string pyval)) :
  (retry_count (self w) <= 0 ->
   _request transport method url data params w = (OK PNone, w))
  /\ (1 <= retry_count (self w) -> session (self w) = None ->
      _request transport method url data params w = (Raise AttributeError, w)).
Proof.
  split.
  - intros Hrc. unfold _request, bind, get_self. by rewrite seqZ_nil by lia.
  - intros Hrc Hs. unfold _request, bind at 1, get_self.
    rewrite (seqZ_cons 0) by lia. cbn [request_loop]. unfold bind at 1.
    by rewrite request_once_no_session.
Qed.


End RequestShape.

Lemma request_without_budget_or_session_witness :
  common._request sample.unreachable "GET" "http://test/api/test" None None
    {| common.self := common.__init__ "192.168.1.100" 443 "https" "admin" "password"
                                      false 60 0;
       common.trace := [] |}
  = (OK PNone,
     {| common.self := common.__init__ "192.168.1.100" 443 "https" "admin" "password"
                                       false 60 0;
        common.trace := [] |})
  /\ common._request sample.unreachable "GET" "http://test/api/test" None None
       sample.fresh_world
     = (Raise AttributeError, sample.fresh_world).
Proof.
  split.
  - apply (request_without_budget_or_session sample.unreachable). cbn. lia.
  - apply (request_without_budget_or_session sample.unreachable); [cbn; lia|reflexivity].
Defined.


(* ================================================================== *)
(** ** Login *)
(* ================================================================== *)

Section Login.

Import common.

Variable transport : list Event -> Request -> Outcome.
Variable repr_container : pyval -> string.

Lemma ensure_session_facts (w : World) :
  is_Some (session (self (ensure_session w)))
  /\ trace (ensure_session w) = trace w
  /\ session_token (self (ensure_session w)) = session_token (self w)
  /\ base_url (self (ensure_session w)) = base_url (self w)
  /\ retry_count (self (ensure_session w)) = retry_count (self w).
Proof.
  unfold ensure_session. destruct (session (self w)) eqn:Hs; cbn; rewrite ?Hs; eauto 10.
Qed.

(** [login] as a function of what the transport does with its request. *)
Lemma login_run (w : World) :
  login transport repr_container w
  = let w1 := push (ensure_session w) [EvRequest (login_request (self w))] in
    match login_answer (transport (trace w) (login_request (self w))) with
    | inl e =>
        (Raise (QSANApiException
                  ("Failed to login to QSAN storage: " +:+ str_RequestException e)), w1)
    | inr result =>
        match py_get result "token" PNone with
        | OK token =>
            (OK tt,
             {| self := with_session (self w1) (session (self w1))
                                     (token_text repr_container token);
                trace := trace w1 |})
        | Raise e => (Raise e, w1)
        end
    end.
Proof.
  unfold login, bind at 1, get_self. unfold bind at 1.
  assert ((match session (self w) with
           | Some _ => ret tt
           | None => _create_session
           end) w = (OK tt, ensure_session w)) as ->.
  { unfold ensure_session, _create_session, ret. by destruct (session (self w)). }
  destruct (ensure_session_facts w) as ([s Hs] & Htrace & _).
  unfold bind at 1, session_request. rewrite Hs, Htrace.
  unfold login_request, login_answer, push. rewrite Htrace.
  destruct (transport (trace w) _) as [why|response]; [reflexivity|].
  destruct (raise_for_status response); [reflexivity|].
  destruct (content response) as [|result|why]; [reflexivity| |reflexivity].
  unfold bind, lift, store_token. by destruct (py_get result "token" PNone).
Qed.

(** X3: [login] is never retried: whatever the array does, exactly one
    request goes out, the POST of the user name and the password to
    [/login], and nothing sleeps.  Afterwards the client has a session
    (the one it had, or a new one with the configured certificate check),
    and when [login] raises, the token is the one from before. *)
Theorem login_sends_one_request (w : World) :
  let run := login transport repr_container w in
  let req := login_request (self w) in
  trace run.2 = trace w ++ [EvRequest req]
  /\ req_method req = "POST"
  /\ req_url req = base_url (self w) +:+ "/login"
  /\ (exists body, req_json req = Some body
                   /\ body !! "username" = Some (PStr (username (self w)))
                   /\ body !! "password" = Some (PStr (password (self w))))
  /\ session (self run.2)
     = match session (self w) with
       | Some s => Some s
       | None => Some {| verify := ssl_verify (self w) |}
       end
  /\ (forall e, run.1 = Raise e -> session_token (self run.2) = session_token (self w)).
Proof.
  intros run req. subst run. rewrite login_run.
  destruct (ensure_session_facts w) as (_ & Htrace & Htoken & _).
  assert (session (self (ensure_session w))
          = match session (self w) with
            | Some s => Some s
            | None => Some {| verify := ssl_verify (self w) |}
            end) as Hsession
    by (unfold ensure_session; by destruct (session (self w)) eqn:Hs; cbn; rewrite ?Hs).
  split; [|split; [reflexivity|split; [reflexivity|split]]].
  - destruct (login_answer _) as [e|result]; cbn; [by rewrite Htrace|].
    destruct (py_get result "token" PNone); cbn; by rewrite Htrace.
  - eexists. split; [reflexivity|]. unfold login_data. split; by simplify_map_eq.
  - split.
    + destruct (login_answer _) as [e|result]; cbn; [exact Hsession|].
      destruct (py_get result "token" PNone); cbn; exact Hsession.
    + intros e. destruct (login_answer _) as [e'|result]; cbn; [by intros _|].
      destruct (py_get result "token" PNone); cbn; [discriminate|by intros _].
Qed.

(** X4: [login] raises [QSANApiException] when the transport raises, when
    the array answers with a 4xx or 5xx status, and when it answers with
    an empty body (which [_request] would take for success). *)
Theorem login_failures (w : World) :
  (exists why, transport (trace w) (login_request (self w)) = TransportRaises why)
  \/ (exists response,
        transport (trace w) (login_request (self w)) = Responds response
        /\ (http_error_status response \/ content response = EmptyBody)) ->
  exists message,
    (login transport repr_container w).1
    = Raise (QSANApiException ("Failed to login to QSAN storage: " +:+ message)).
Proof.
  intros Hfail. rewrite login_run.
  assert (exists e, login_answer (transport (trace w) (login_request (self w))) = inl e)
    as [e ->].
  { destruct Hfail as [[why ->]|(response & -> & Hbad)]; [by eexists|].
    unfold login_answer. destruct Hbad as [Hstatus|Hempty].
    - destruct (raise_for_status_http_error response Hstatus) as [e ->]. by eexists.
    - destruct (raise_for_status response); [by eexists|]. rewrite Hempty. by eexists. }
  by eexists.
Qed.

(** X5: when the array answers the login with a JSON object, [login]
    returns and the token is what the object holds under ["token"]: that
    string, or [None] when the key is missing.  When the answer is a JSON
    document of another kind, [AttributeError] comes out, not
    [QSANApiException]. *)
Theorem login_stores_token (w : World) (response : Response) (result : pyval) :
  transport (trace w) (login_request (self w)) = Responds response ->
  raise_for_status response = None ->
  content response = JsonBody result ->
  let run := login transport repr_container w in
  match result with
  | PDict d =>
      run.1 = OK tt
      /\ session_token (self run.2)
         = token_text repr_container (default PNone (d !! "token"))
      /\ (forall t, d !! "token" = Some (PStr t) -> session_token (self run.2) = Some t)
      /\ (d !! "token" = None -> session_token (self run.2) = None)
  | _ => run.1 = Raise AttributeError
  end.
Proof.
  intros Hresp Hstatus Hcontent run. subst run. rewrite login_run.
  unfold login_answer. rewrite Hresp, Hstatus, Hcontent.
  destruct result as [| | | | |d]; try reflexivity.
  cbn. split; [reflexivity|]. split; [reflexivity|].
  split; [by intros t ->|by intros ->].
Qed.

End Login.

Lemma login_failures_witness :
  exists message,
    (common.login sample.broken sample.repr_container sample.fresh_world).1
    = Raise (QSANApiException ("Failed to login to QSAN storage: " +:+ message)).
Proof.
  apply login_failures. right. eexists. split; [reflexivity|].
  left. unfold http_error_status. cbn. lia.
Defined.

Lemma login_stores_token_witness :
  (common.login sample.login_array sample.repr_container sample.fresh_world).1 = OK tt
  /\ common.session_token
       (common.self
          (common.login sample.login_array sample.repr_container sample.fresh_world).2)
     = Some "fake-session-token-12345".
Proof.
  pose proof (login_stores_token sample.login_array sample.repr_container
                sample.fresh_world _
                (PDict {[ "token" := PStr "fake-session-token-12345" ]})
                eq_refl eq_refl eq_refl) as (Hrun & _ & Htoken & _).
  split; [exact Hrun|]. by apply Htoken.
Defined.

Section Token.

Import common.

Variable transport : list Event -> Request -> Outcome.
Variable repr_container : pyval -> string.

Lemma make_headers_lookup (c : QSANClient) :
  make_headers c !! "Content-Type" = Some "application/json"
  /\ make_headers c !! "Authorization" = bearer (session_token c).
Proof.
  unfold make_headers, bearer. destruct (session_token c) as [t|]; [|done].
  destruct (pystr.truthy t); by simplify_map_eq.
Qed.

(** X6: every request that [_request] sends is the one it was asked for
    (method and URL), says that its content is JSON, carries the configured
    timeout, and carries [Authorization: Bearer <token>] exactly when the
    client holds a token that is not empty. *)
Theorem requests_carry_the_token (w : World) (method url : string)
        (data params : option (gmap string pyval)) :
  only_requests
    (fun req =>
       req_method req = method /\ req_url req = url
       /\ req_json req = data /\ req_params req = params
       /\ req_timeout req = timeout (self w)
       /\ req_headers req !! "Content-Type" = Some "application/json"
       /\ req_headers req !! "Authorization" = bearer (session_token (self w)))
    w (_request transport method url data params w).2.
Proof.
  eapply only_weaken; [|apply _request_only].
  intros req ->. destruct (make_headers_lookup (self w)) as [Hct Hauth].
  by repeat split.
Qed.

Lemma logout_request_only (w : World) :
  only_requests
    (fun req =>
       req_method req = "POST" /\ req_url req = base_url (self w) +:+ "/logout"
       /\ req_headers req !! "Authorization" = bearer (session_token (self w)))
    w (_request transport "POST" (base_url (self w) +:+ "/logout") None None w).2.
Proof.
  eapply only_weaken; [|apply _request_only].
  intros req ->. destruct (make_headers_lookup (self w)) as [_ Hauth].
  by repeat split.
Qed.

Lemma logout_run (w : World) :
  is_Some (session (self w)) -> is_Some (session_token (self w)) ->
  logout transport w
  = (OK tt,
     clear_session
       (_request transport "POST" (base_url (self w) +:+ "/logout") None None w).2).
Proof.
  intros [s Hs] [t Ht]. unfold logout, bind at 1, get_self. rewrite Hs, Ht.
  unfold try_finally, try_except, bind.
  by destruct (_request transport "POST" _ None None w) as [[v|e] w1].
Qed.

(** X7: after a login that the array answered with a JSON object,
    - when the object holds a string under ["token"], [logout] returns
      normally, sends nothing but POST requests to [/logout] that carry
      that token as bearer (when it is not empty), and leaves neither
      session nor token;
    - when the object has no ["token"], the client holds no token, so
      [logout] sends nothing and the session stays in place. *)
Theorem login_then_logout (w : World) (response : Response) (d : gmap string pyval) :
  transport (trace w) (login_request (self w)) = Responds response ->
  raise_for_status response = None ->
  content response = JsonBody (PDict d) ->
  let w1 := (login transport repr_container w).2 in
  (d !! "token" = None ->
   logout transport w1 = (OK tt, w1) /\ is_Some (session (self w1)))
  /\ (forall t, d !! "token" = Some (PStr t) ->
      let out := logout transport w1 in
      out.1 = OK tt
      /\ session (self out.2) = None /\ session_token (self out.2) = None
      /\ exists evs,
           trace out.2 = trace w1 ++ evs
           /\ Forall (fun req =>
                        req_method req = "POST"
                        /\ req_url req = base_url (self w) +:+ "/logout"
                        /\ req_headers req !! "Authorization" = bearer (Some t))
                     (requests_of evs)).
Proof.
  intros Hresp Hstatus Hcontent w1.
  destruct (ensure_session_facts w) as (Hs & _ & _ & Hbase & _).
  assert (w1 = {| self := with_session
                            (self (push (ensure_session w)
                                        [EvRequest (login_request (self w))]))
                            (session (self (ensure_session w)))
                            (token_text repr_container (default PNone (d !! "token")));
                  trace := trace (push (ensure_session w)
                                       [EvRequest (login_request (self w))]) |}) as Hw1.
  { subst w1. rewrite login_run. unfold login_answer.
    by rewrite Hresp, Hstatus, Hcontent. }
  split.
  - intros Hnone. rewrite Hw1, Hnone. cbn [default token_text]. split; [|exact Hs].
    unfold logout, bind, get_self. cbn [self session_token with_session].
    by destruct (session (self (ensure_session w))).
  - intros t Ht out. subst out.
    assert (is_Some (session (self w1))) as Hs1 by (by rewrite Hw1).
    assert (session_token (self w1) = Some t) as Ht1
      by (rewrite Hw1, Ht; reflexivity).
    assert (base_url (self w1) = base_url (self w)) as Hb1
      by (rewrite Hw1; exact Hbase).
    rewrite logout_run by (by rewrite ?Ht1).
    split; [reflexivity|]. split; [reflexivity|]. split; [reflexivity|].
    destruct (logout_request_only w1) as (evs & Hevs & Hall).
    exists evs. rewrite Hevs. split; [reflexivity|].
    eapply Forall_impl; [exact Hall|]. cbn beta.
    intros req (Hm & Hu & Hh). rewrite Hb1 in Hu. rewrite Ht1 in Hh. done.
Qed.

End Token.

Lemma login_then_logout_witness :
  let w1 := (common.login sample.login_array sample.repr_container sample.fresh_world).2 in
  (common.logout sample.login_array w1).1 = OK tt
  /\ common.session (common.self (common.logout sample.login_array w1).2) = None
  /\ common.session_token (common.self (common.logout sample.login_array w1).2) = None.
Proof.
  destruct (login_then_logout sample.login_array sample.repr_container
              sample.fresh_world _ {[ "token" := PStr "fake-session-token-12345" ]}
              eq_refl eq_refl eq_refl) as [_ Htoken].
  destruct (Htoken "fake-session-token-12345" eq_refl) as (Hrun & Hs & Ht & _).
  split; [exact Hrun|]. split; [exact Hs|exact Ht].
Defined.

(* ================================================================== *)
(** ** Look-ups that swallow API errors *)
(* ================================================================== *)

Section Lookups.

Import common.

Variable transport : list Event -> Request -> Outcome.
Variable repr_container : pyval -> string.


Lemma failing_request (method url : string) (data params : option (gmap string pyval))
      (w : World) :
  always_fails transport ->
  is_Some (session (self w)) -> 1 <= retry_count (self w) ->
  exists message,
    _request transport method url data params w
    = (Raise (QSANApiException message),
       push w (retried (make_request (self w) method url data params)
                       (Z.to_nat (retry_count (self w) - 1))
               ++ [EvRequest (make_request (self w) method url data params)])).
Proof.
  intros Hfail Hs Hrc.
  destruct (request_exhausts_budget transport w method url data params
              (retry_count (self w)) eq_refl Hrc Hs) as [e He].
  { intros i _. apply Hfail. }
  by eexists.
Qed.


(** X9: [get_iscsi_target_by_name] returns the first element of the list
    that the array answers with and ignores the rest; an empty list, an
    empty answer and an API error all give [None]; an answer that is a
    non-empty JSON object makes [result[0]] raise [KeyError]. *)
Theorem target_lookup_takes_the_first (w : World) (target_name : string)
        (r : result pyval) (w1 : World) :
  _request transport "GET" (base_url (self w) +:+ "/iscsi/targets") None
           (Some {[ "name" := PStr target_name ]}) w = (r, w1) ->
  (forall first rest, r = OK (PList (first :: rest)) ->
     get_iscsi_target_by_name transport target_name w = (OK first, w1))
  /\ (r = OK (PList []) \/ r = OK PNone \/ (exists message, r = Raise (QSANApiException message)) ->
      get_iscsi_target_by_name transport target_name w = (OK PNone, w1))
  /\ (forall d, r = OK (PDict d) -> d <> ∅ ->
      get_iscsi_target_by_name transport target_name w = (Raise KeyError, w1)).
Proof.
  intros Hrun.
  assert (get_iscsi_target_by_name transport target_name w
          = match r with
            | OK result =>
                if py_truthy result then
                  match py_len result with
                  | OK n => if 0 <? n then (py_getitem0 result, w1) else (OK PNone, w1)
                  | Raise e => (Raise e, w1)
                  end
                else (OK PNone, w1)
            | Raise (QSANApiException _) => (OK PNone, w1)
            | Raise e => (Raise e, w1)
            end) as ->.
  { unfold get_iscsi_target_by_name, bind at 1, get_self.
    unfold try_except, bind at 1. rewrite Hrun.
    destruct r as [result|e]; [|by destruct e].
    destruct (py_truthy result); [|reflexivity].
    unfold bind, lift, ret.
    destruct result as [|b|z|t|l|d]; cbn [py_len py_getitem0]; try reflexivity.
    - destruct (0 <? Z.of_nat (String.length t)); [|reflexivity]. by destruct t.
    - destruct (0 <? Z.of_nat (length l)); [|reflexivity]. by destruct l.
    - by destruct (0 <? Z.of_nat (size d)). }
  split; [|split].
  - by intros first rest ->.
  - by intros [->|[->|[message ->]]].
  - intros d -> Hd. cbn [py_truthy py_len py_getitem0].
    assert ((0 < size d)%nat) as Hsize.
    { destruct (size d) eqn:Hz; [|lia]. by apply map_size_empty_iff in Hz. }
    assert ((0 <? size d)%nat = true) as -> by (by apply Nat.ltb_lt).
    assert ((0 <? Z.of_nat (size d)) = true) as -> by (apply Z.ltb_lt; lia).
    reflexivity.
Qed.

Lemma no_delete_among_gets (req : Request) (k : nat) :
  req_method req = "GET" -> delete_requests (retried req k ++ [EvRequest req]) = [].
Proof.
  intros Hget. unfold delete_requests.
  assert (Forall (fun r => req_method r = "GET")
                 (requests_of (retried req k ++ [EvRequest req]))) as Hall.
  { rewrite requests_of_app, requests_of_retried. apply Forall_app. split.
    - by apply Forall_replicate.
    - by repeat constructor. }
  induction Hall as [|r reqs Hr Hall IH]; [reflexivity|].
  rewrite filter_cons_False; [exact IH|]. rewrite Hr. discriminate.
Qed.

(** X10: an array that cannot be reached looks like an array without the
    volume.  When no attempt of the presence check succeeds, on a client
    with a session and a positive budget, [delete_volume],
    [delete_snapshot] and [remove_export] all return normally, although
    nothing was deleted: no DELETE request went out. *)
Theorem unreachable_array_looks_empty (w : World) (volume : Volume.t)
        (snapshot : Snapshot.t) :
  always_fails transport ->
  is_Some (session (self w)) -> 1 <= retry_count (self w) ->
  (exists evs,
     qsan_iscsi.delete_volume transport volume w = (OK tt, push w evs)
     /\ delete_requests evs = [])
  /\ (exists evs,
        qsan_iscsi.delete_snapshot transport snapshot w = (OK tt, push w evs)
        /\ delete_requests evs = [])
  /\ (exists evs,
        qsan_iscsi.remove_export transport repr_container volume w = (OK tt, push w evs)
        /\ delete_requests evs = []).
Proof.
  intros Hfail Hs Hrc. split; [|split].
  - unfold qsan_iscsi.delete_volume, qsan_iscsi.wrap_api_error, try_except, bind at 1.
    unfold get_volume, bind at 1, get_self, try_except.
    match goal with
    | |- context [_request transport ?m ?u ?d ?p w] =>
        destruct (failing_request m u d p w Hfail Hs Hrc) as [message ->]
    end.
    eexists. split; [reflexivity|]. by apply no_delete_among_gets.
  - unfold qsan_iscsi.delete_snapshot, qsan_iscsi.wrap_api_error, try_except, bind at 1.
    unfold get_snapshot, bind at 1, get_self, try_except.
    match goal with
    | |- context [_request transport ?m ?u ?d ?p w] =>
        destruct (failing_request m u d p w Hfail Hs Hrc) as [message ->]
    end.
    eexists. split; [reflexivity|]. by apply no_delete_among_gets.
  - unfold qsan_iscsi.remove_export, qsan_iscsi.wrap_api_error, try_except, bind at 1.
    unfold get_iscsi_target_by_name, bind at 1, get_self, try_except, bind at 1.
    match goal with
    | |- context [_request transport ?m ?u ?d ?p w] =>
        destruct (failing_request m u d p w Hfail Hs Hrc) as [message ->]
    end.
    eexists. split; [reflexivity|]. by apply no_delete_among_gets.
Qed.

End Lookups.

Lemma unreachable_always_fails : always_fails sample.unreachable.
Proof. intros tr req. by eexists. Qed.


Lemma target_lookup_takes_the_first_witness :
  common.get_iscsi_target_by_name sample.talkative "target-fake-id" sample.world
  = (Raise KeyError,
     (common._request sample.talkative "GET"
        (common.base_url (common.self sample.world) +:+ "/iscsi/targets") None
        (Some {[ "name" := PStr "target-fake-id" ]}) sample.world).2).
Proof.
  destruct (target_lookup_takes_the_first sample.talkative sample.world
              "target-fake-id" (OK (PDict {[ "status" := PStr "ok" ]}))
              (common._request sample.talkative "GET"
                 (common.base_url (common.self sample.world) +:+ "/iscsi/targets") None
                 (Some {[ "name" := PStr "target-fake-id" ]}) sample.world).2)
    as (_ & _ & Hobject).
  { vm_compute. reflexivity. }
  apply (Hobject {[ "status" := PStr "ok" ]} eq_refl).
  intros Hempty. apply (f_equal (fun m : gmap string pyval => m !! "status")) in Hempty.
  vm_compute in Hempty. discriminate Hempty.
Defined.

Lemma unreachable_array_looks_empty_witness :
  exists evs,
    qsan_iscsi.delete_volume sample.unreachable (sample.volume None) sample.world
    = (OK tt, push sample.world evs)
    /\ delete_requests evs = [].
Proof.
  destruct (unreachable_array_looks_empty sample.unreachable sample.repr_container
              sample.world (sample.volume None) sample.snapshot
              unreachable_always_fails (ex_intro _ _ eq_refl) ltac:(cbn; lia))
    as [Hvolume _].
  exact Hvolume.
Defined.

(* ================================================================== *)
(** ** Clones, snapshots and pools *)
(* ================================================================== *)

Section Clones.

Import common.

Variable transport : list Event -> Request -> Outcome.
Variable repr_container : pyval -> string.

Lemma create_volume_from_snapshot_only (src snap new : string) (size_gb : option Z)
      (w : World) :
  only_requests (clones_with_size new (given_size size_gb)) w
    (create_volume_from_snapshot transport src snap new size_gb w).2.
Proof.
  unfold create_volume_from_snapshot, bind at 1, get_self.
  eapply only_weaken; [|apply _request_only].
  intros req ->. split; [reflexivity|]. eexists. split; [reflexivity|].
  unfold given_size. destruct size_gb as [n|]; [|split; by simplify_map_eq].
  destruct (n =? 0); cbn [negb]; split; by simplify_map_eq.
Qed.

(** X11: every request of the client's [create_volume_from_snapshot] is a
    POST that names the new volume; it carries [size = s * 2^30] when a
    size [s] other than zero is given, and no [size] at all when the size
    is [None] or [0].  The driver passes the size of the new volume, so a
    volume of size [0] is created without a size. *)
Theorem snapshot_clone_size_is_optional (w : World) :
  (forall src snap new size_gb,
     only_requests (clones_with_size new (given_size size_gb)) w
       (create_volume_from_snapshot transport src snap new size_gb w).2)
  /\ (forall volume snapshot,
        only_requests
          (clones_with_size (qsan_iscsi._get_volume_name volume)
             (if Volume.size volume =? 0 then None else Some (Volume.size volume)))
          w (qsan_iscsi.create_volume_from_snapshot transport volume snapshot w).2).
Proof.
  split.
  - intros. apply create_volume_from_snapshot_only.
  - intros volume snapshot. unfold qsan_iscsi.create_volume_from_snapshot.
    rewrite wrap_api_error_world, bind_ret_world.
    apply (create_volume_from_snapshot_only _ _ _ (Some (Volume.size volume))).
Qed.

Lemma clone_volume_only (src dst : string) (w : World) :
  only_requests (fun req => req_method req = "POST") w
                (clone_volume transport src dst None w).2.
Proof.
  unfold clone_volume, bind at 1, get_self.
  eapply only_weaken; [|apply _request_only]. by intros req ->.
Qed.

(** X12: [create_cloned_volume] extends the clone only when it has to.
    When the new volume is not larger than its source, or when the clone
    request fails, nothing but the POST requests of the clone goes out (no
    PUT).  When the clone succeeds and the new volume is larger, what
    follows are extension requests for the new size in bytes, and with a
    session and a positive retry budget there is at least one. *)
Theorem clone_extends_only_when_larger (w : World) (volume src_vref : Volume.t)
        (r : result pyval) (w1 : World) :
  clone_volume transport (qsan_iscsi._get_volume_name src_vref)
               (qsan_iscsi._get_volume_name volume) None w = (r, w1) ->
  let run := qsan_iscsi.create_cloned_volume transport volume src_vref w in
  only_requests (fun req => req_method req = "POST") w w1
  /\ (Volume.size volume <= Volume.size src_vref \/ (exists e, r = Raise e) ->
      run.2 = w1)
  /\ (Volume.size src_vref < Volume.size volume -> (exists v, r = OK v) ->
      only_requests (extends_volume (Volume.size volume)) w1 run.2
      /\ (is_Some (session (self w)) -> 1 <= retry_count (self w) ->
          exists req evs,
            extends_volume (Volume.size volume) req
            /\ run.2 = push w1 (EvRequest req :: evs))).
Proof.
  intros Hclone run.
  pose proof (clone_volume_only (qsan_iscsi._get_volume_name src_vref)
                (qsan_iscsi._get_volume_name volume) w) as Hposts.
  rewrite Hclone in Hposts. cbn [snd] in Hposts.
  assert (run.2
          = match r with
            | OK _ =>
                if Volume.size src_vref <? Volume.size volume then
                  (extend_volume transport (qsan_iscsi._get_volume_name volume)
                     (Volume.size volume) w1).2
                else w1
            | Raise _ => w1
            end) as Hrun.
  { subst run. unfold qsan_iscsi.create_cloned_volume.
    rewrite wrap_api_error_world. unfold bind at 1. rewrite Hclone.
    destruct r as [v|e]; [|reflexivity].
    destruct (Volume.size src_vref <? Volume.size volume); [|reflexivity].
    apply bind_ret_world. }
  split; [exact Hposts|]. split.
  - intros [Hle|[e ->]]; rewrite Hrun; [|reflexivity].
    destruct r; [|reflexivity].
    by assert ((Volume.size src_vref <? Volume.size volume) = false) as ->
      by (apply Z.ltb_ge; lia).
  - intros Hlt [v ->]. rewrite Hrun.
    assert ((Volume.size src_vref <? Volume.size volume) = true) as ->
      by (apply Z.ltb_lt; lia).
    split; [apply extend_volume_only|].
    intros Hs Hrc. pose proof (only_self _ _ _ Hposts) as Hself.
    set (body := ({[ "size" := PInt (Volume.size volume * units.Gi) ]}
                  : gmap string pyval)).
    destruct (_request_sends transport "PUT"
                (base_url (self w1) +:+ "/volumes/"
                 +:+ qsan_iscsi._get_volume_name volume)
                (Some body) None w1) as [evs Hevs];
      [by rewrite Hself|by rewrite Hself|].
    eexists _, evs. split; [|exact Hevs].
    split; [reflexivity|]. exists body. split; [reflexivity|].
    subst body. by simplify_map_eq.
Qed.

(** X13: [get_pool_stats] answers with exactly the three keys
    [total_capacity], [free_capacity] and [used_capacity] when the pool
    information is a JSON object, each holding the value of the object or
    [0] when the object lacks the key.  When the array answers with an
    empty body ([None]) or another non-object, [AttributeError] comes out
    instead of an API error. *)
Theorem pool_stats_default_to_zero (w : World) (pool_name : option string)
        (pool_info : pyval) (w1 : World) :
  get_pool transport repr_container pool_name w = (OK pool_info, w1) ->
  match pool_info with
  | PDict d =>
      exists stats : gmap string pyval,
        get_pool_stats transport repr_container pool_name w = (OK stats, w1)
        /\ dom stats = {[ "total_capacity"; "free_capacity"; "used_capacity" ]}
        /\ (forall key,
              key ∈ dom stats -> stats !! key = Some (default (PInt 0) (d !! key)))
  | _ => get_pool_stats transport repr_container pool_name w = (Raise AttributeError, w1)
  end.
Proof.
  intros Hpool.
  destruct pool_info as [| | | | |d];
    unfold get_pool_stats, bind at 1; rewrite Hpool; try reflexivity.
  unfold bind, lift, ret. cbn [py_get]. eexists. split; [reflexivity|]. split.
  - rewrite !dom_insert_L, dom_singleton_L. set_solver.
  - intros key Hkey. rewrite !dom_insert_L, dom_singleton_L in Hkey.
    assert (key = "used_capacity" \/ key = "free_capacity" \/ key = "total_capacity")
      as [->|[->| ->]] by set_solver; by simplify_map_eq.
Qed.

Lemma get_system_info_run (w : World) :
  get_system_info transport w
  = _request transport "GET" (base_url (self w) +:+ "/system") None None w.
Proof. reflexivity. Qed.

(** X14: the three field readers fall back to a fixed value when the
    array's JSON object lacks the field: [get_iscsi_portals] to the empty
    list, [get_system_version] to ["unknown"], [get_iscsi_iqn_prefix] to
    ["iqn.2004-08.com.qsan"]; a field that is present is returned as it is,
    and an answer that is no object (an empty body, say) raises
    [AttributeError]. *)
Theorem fields_fall_back (w : World) (answer : result pyval) (w1 : World) :
  (_request transport "GET" (base_url (self w) +:+ "/iscsi/portals") None None w
   = (answer, w1) ->
   get_iscsi_portals transport w
   = (match answer with
      | OK (PDict d) => OK (default (PList []) (d !! "portals"))
      | OK _ => Raise AttributeError
      | Raise e => Raise e
      end, w1))
  /\ (_request transport "GET" (base_url (self w) +:+ "/system") None None w
      = (answer, w1) ->
      get_system_version transport w
      = (match answer with
         | OK (PDict d) => OK (default (PStr "unknown") (d !! "version"))
         | OK _ => Raise AttributeError
         | Raise e => Raise e
         end, w1)
      /\ get_iscsi_iqn_prefix transport w
         = (match answer with
            | OK (PDict d) =>
                OK (default (PStr "iqn.2004-08.com.qsan") (d !! "iscsi_iqn_prefix"))
            | OK _ => Raise AttributeError
            | Raise e => Raise e
            end, w1)).
Proof.
  split.
  - intros Hrun. unfold get_iscsi_portals, bind at 1, get_self, bind.
    rewrite Hrun. by destruct answer as [[]|].
  - intros Hrun. unfold get_system_version, get_iscsi_iqn_prefix, bind.
    rewrite get_system_info_run, Hrun. by destruct answer as [[]|].
Qed.

End Clones.

Lemma clone_extends_only_when_larger_witness :
  (qsan_iscsi.create_cloned_volume sample.unreachable (sample.volume None)
     (sample.volume None) sample.world).2
  = (common.clone_volume sample.unreachable "volume-fake-id" "volume-fake-id" None
       sample.world).2.
Proof.
  destruct (clone_extends_only_when_larger sample.unreachable sample.world
              (sample.volume None) (sample.volume None)
              (common.clone_volume sample.unreachable "volume-fake-id" "volume-fake-id"
                 None sample.world).1
              (common.clone_volume sample.unreachable "volume-fake-id" "volume-fake-id"
                 None sample.world).2) as (_ & Hsame & _).
  { apply surjective_pairing. }
  apply Hsame. left. cbn. lia.
Defined.

Lemma pool_stats_default_to_zero_witness :
  exists stats : gmap string pyval,
    (common.get_pool_stats sample.talkative sample.repr_container (Some "Pool-1")
       sample.world).1 = OK stats
    /\ stats !! "total_capacity" = Some (PInt 0).
Proof.
  pose proof (pool_stats_default_to_zero sample.talkative sample.repr_container
                sample.world (Some "Pool-1") (PDict {[ "status" := PStr "ok" ]})
                (common.get_pool sample.talkative sample.repr_container (Some "Pool-1")
                   sample.world).2) as Hstats.
  destruct Hstats as (stats & Hrun & Hdom & Hkeys).
  { vm_compute. reflexivity. }
  exists stats. split; [by rewrite Hrun|].
  rewrite Hkeys; [reflexivity|]. rewrite Hdom. set_solver.
Defined.

Lemma fields_fall_back_witness :
  (common.get_system_version sample.talkative sample.world).1 = OK (PStr "unknown").
Proof.
  destruct (fields_fall_back sample.talkative sample.world
              (OK (PDict {[ "status" := PStr "ok" ]}))
              (common._request sample.talkative "GET"
                 (common.base_url (common.self sample.world) +:+ "/system")
                 None None sample.world).2) as [_ Hsystem].
  destruct Hsystem as [Hversion _].
  { vm_compute. reflexivity. }
  by rewrite Hversion.
Defined.

(* ================================================================== *)
(** ** Portals and the persisted texts *)
(* ================================================================== *)

Section Persisted.

Import pystr qsan_iscsi.

Lemma with_default_port_has_colon (portal : string) :
  contains ":" (with_default_port portal) = true.
Proof.
  unfold with_default_port. destruct (contains ":" portal) eqn:Hc; [exact Hc|].
  rewrite contains_app. by rewrite orb_true_r.
Qed.

Lemma _get_iscsi_portals_run (configuration : Configuration) :
  _get_iscsi_portals configuration
  = match qsan_iscsi_portals configuration, qsan_management_ip configuration with
    | [], None => Raise TypeError
    | [], Some ip => OK [with_default_port ip]
    | configured, _ => OK (with_default_port <$> configured)
    end.
Proof.
  unfold _get_iscsi_portals, with_default_port.
  destruct (qsan_iscsi_portals configuration) as [|p ps].
  - destruct (qsan_management_ip configuration) as [ip|]; [|reflexivity].
    by destruct (contains ":" ip).
  - f_equal. apply list_fmap_ext. intros _ q _. by destruct (contains ":" q).
Qed.

(** X15: the portals that [_get_iscsi_portals] returns are never an empty
    list and each of them contains a colon.  A configured portal with a
    colon anywhere in it (a port, but also an IPv6 address) is handed out
    unchanged, any other gets [":3260"] appended; the order and the number
    of the configured portals are kept.  Without configured portals the
    management address is the only portal, and [TypeError] comes out when
    that is unset too. *)
Theorem portals_always_have_a_port (configuration : Configuration) :
  (forall portals,
     _get_iscsi_portals configuration = OK portals ->
     portals <> [] /\ Forall (fun p => contains ":" p = true) portals)
  /\ (qsan_iscsi_portals configuration <> [] ->
      _get_iscsi_portals configuration
      = OK (with_default_port <$> qsan_iscsi_portals configuration)
      /\ forall i p,
           qsan_iscsi_portals configuration !! i = Some p ->
           contains ":" p = true ->
           (with_default_port <$> qsan_iscsi_portals configuration) !! i = Some p)
  /\ (qsan_iscsi_portals configuration = [] ->
      _get_iscsi_portals configuration
      = match qsan_management_ip configuration with
        | Some ip => OK [with_default_port ip]
        | None => Raise TypeError
        end).
Proof.
  rewrite _get_iscsi_portals_run. split; [|split].
  - intros portals Hrun.
    destruct (qsan_iscsi_portals configuration) as [|p ps].
    + destruct (qsan_management_ip configuration) as [ip|]; [|discriminate].
      injection Hrun as <-. split; [discriminate|].
      repeat constructor. apply with_default_port_has_colon.
    + injection Hrun as <-. split; [discriminate|].
      apply Forall_forall. intros q Hq.
      change (q ∈ with_default_port <$> p :: ps) in Hq.
      apply list_elem_of_fmap in Hq as (q0 & -> & _).
      apply with_default_port_has_colon.
  - intros Hne. destruct (qsan_iscsi_portals configuration) as [|p ps]; [done|].
    split; [reflexivity|]. intros i q Hq Hcolon.
    rewrite list_lookup_fmap, Hq. cbn. unfold with_default_port. by rewrite Hcolon.
  - by intros ->.
Qed.

Lemma with_default_port_storable (portal : string) :
  storable_portal portal -> storable_portal (with_default_port portal).
Proof.
  intros [Hspace Hsemi]. unfold with_default_port.
  destruct (contains ":" portal); [by split|].
  split; rewrite contains_app; [by rewrite Hspace|by rewrite Hsemi].
Qed.

Lemma parse_encoded (portals : list string) (iqn : string) (lun : Z) :
  portals <> [] -> Forall storable_portal portals ->
  contains " " iqn = false -> 0 <= lun ->
  parse_provider_location (format_location portals iqn (of_int lun))
  = OK (portals, iqn, lun).
Proof.
  intros Hne Hp Hiqn Hlun. unfold parse_provider_location.
  change (format_location portals iqn (of_int lun)) with (encode_location portals iqn lun).
  rewrite encode_location_split by assumption. cbn [lookup list_lookup].
  rewrite (split_join ";"), to_int_of_int; [reflexivity|assumption..|].
  eapply Forall_impl; [exact Hp|]. by intros p [_ ?].
Qed.

Lemma format_location_truthy (portals : list string) (iqn_text lun_text : string) :
  truthy (format_location portals iqn_text lun_text) = true.
Proof.
  unfold format_location. destruct (join ";" portals) as [|a r]; reflexivity.
Qed.



End Persisted.

Lemma portals_always_have_a_port_witness :
  qsan_iscsi._get_iscsi_portals
    {| qsan_iscsi.qsan_management_ip := Some "192.168.1.100";
       qsan_iscsi.qsan_pool_name := Some "Pool-1";
       qsan_iscsi.qsan_iscsi_portals := ["192.168.1.101"; "fe80::1"];
       qsan_iscsi.qsan_chap_enabled := false;
       qsan_iscsi.qsan_chap_username := None;
       qsan_iscsi.qsan_chap_password := None;
       qsan_iscsi.qsan_thin_provision := true |}
  = OK ["192.168.1.101:3260"; "fe80::1"].
Proof.
  destruct (portals_always_have_a_port
              {| qsan_iscsi.qsan_management_ip := Some "192.168.1.100";
                 qsan_iscsi.qsan_pool_name := Some "Pool-1";
                 qsan_iscsi.qsan_iscsi_portals := ["192.168.1.101"; "fe80::1"];
                 qsan_iscsi.qsan_chap_enabled := false;
                 qsan_iscsi.qsan_chap_username := None;
                 qsan_iscsi.qsan_chap_password := None;
                 qsan_iscsi.qsan_thin_provision := true |}) as (_ & Hconfigured & _).
  destruct Hconfigured as [Hrun _]; [discriminate|]. exact Hrun.
Defined.



(* ================================================================== *)
(** ** Errors of the driver operations *)
(* ================================================================== *)

Section Wrapping.

Import common.

Variable transport : list Event -> Request -> Outcome.
Variable repr_container : pyval -> string.
Variable configuration : qsan_iscsi.Configuration.










End Wrapping.


(* ================================================================== *)
(** ** Removing an export, attaching and detaching *)
(* ================================================================== *)

Section Attach.

Import common.

Variable transport : list Event -> Request -> Outcome.
Variable repr_container : pyval -> string.








Lemma properties_of_location (volume : Volume.t) (location : string)
      (portals : list string) (iqn : string) (lun : Z) :
  Volume.provider_location volume = Some location ->
  pystr.truthy location = true ->
  qsan_iscsi.parse_provider_location location = OK (portals, iqn, lun) ->
  exists properties : gmap string pyval,
    qsan_iscsi._get_iscsi_properties volume = OK properties
    /\ properties !! "target_portal" = PStr <$> head portals
    /\ properties !! "target_iqn" = Some (PStr iqn)
    /\ properties !! "target_lun" = Some (PInt lun)
    /\ properties !! "volume_id" = Some (PStr (Volume.id volume))
    /\ properties !! "target_discovered" = Some (PBool false).
Proof.
  intros Hloc Htruthy Hparse.
  pose proof (parse_portals_nonempty _ _ _ _ Hparse) as Hne.
  unfold qsan_iscsi._get_iscsi_properties. rewrite Hloc, Htruthy. cbn [negb].
  rewrite Hparse. cbn [result_bind].
  destruct portals as [|portal0 rest]; [done|].
  eexists. split; [reflexivity|].
  destruct (1 <? length (portal0 :: rest))%nat,
           (pystr.truthy_opt (Volume.provider_auth volume));
    try destruct (pystr.split " " (default EmptyString (Volume.provider_auth volume)))
      as [|method [|user [|pass more]]];
    repeat split; by simplify_map_eq.
Qed.


End Attach.



(* ================================================================== *)
(** ** The setup check *)
(* ================================================================== *)

Section Setup.

Import common.

Variable transport : list Event -> Request -> Outcome.
Variable repr_container : pyval -> string.
Variable configuration : qsan_iscsi.Configuration.


End Setup.


(* ================================================================== *)
(** ** From the export to the connection *)
(* ================================================================== *)

Section RoundTrip.

Import common.

Variable transport : list Event -> Request -> Outcome.
Variable repr_container : pyval -> string.
Variable configuration : qsan_iscsi.Configuration.

Lemma export_suffix_location (ids : pyval * pyval * pyval) (w2 w' : World)
      (res : gmap string pyval) :
  export_suffix transport repr_container configuration ids w2 = (OK res, w') ->
  exists portals,
    qsan_iscsi._get_iscsi_portals configuration = OK portals
    /\ res !! "provider_location"
       = Some (PStr (qsan_iscsi.format_location portals
                       (py_str repr_container ids.1.2)
                       (py_str repr_container ids.2))).
Proof.
  destruct ids as [[target_id target_iqn] lun_id]. unfold export_suffix, bind at 1.
  match goal with |- context [match ?c w2 with _ => _ end] =>
    destruct (c w2) as [[auth|e] w3] end; [|discriminate].
  unfold bind, lift, ret.
  destruct (qsan_iscsi._get_iscsi_portals configuration) as [portals|e]; [|discriminate].
  intros [= <- _]. exists portals. split; [reflexivity|]. by simplify_map_eq.
Qed.

Lemma export_suffix_extends (ids : pyval * pyval * pyval) (w2 : World) :
  exists evs,
    (export_suffix transport repr_container configuration ids w2).2 = push w2 evs.
Proof.
  destruct ids as [[target_id target_iqn] lun_id]. unfold export_suffix, bind at 1.
  assert (forall u p, exists evs,
            (set_target_chap transport repr_container target_id u p w2).2
            = push w2 evs) as Hchap.
  { intros u p. unfold set_target_chap, bind at 1, get_self.
    destruct (_request_only transport "PUT"
                (base_url (self w2) +:+ "/iscsi/targets/"
                 +:+ py_str repr_container target_id +:+ "/chap")
                (Some (<["password" := PStr p]> {[ "username" := PStr u ]})) None w2)
      as (evs & Hevs & _).
    by exists evs. }
  assert (forall (auth : pyval) (w3 : World) evs, w3 = push w2 evs ->
            exists evs',
              ((portals <- lift (qsan_iscsi._get_iscsi_portals configuration) ;;
                ret (<["provider_auth" := auth]>
                     ({[ "provider_location" :=
                           PStr (qsan_iscsi.format_location portals
                                   (py_str repr_container target_iqn)
                                   (py_str repr_container lun_id)) ]}
                      : gmap string pyval)))%sr w3).2 = push w2 evs') as Hrest.
  { intros auth w3 evs ->. exists evs. unfold bind, lift, ret.
    by destruct (qsan_iscsi._get_iscsi_portals configuration). }
  destruct (qsan_iscsi.qsan_chap_enabled configuration);
    [|by apply (Hrest PNone w2 []); rewrite push_nil].
  destruct (qsan_iscsi.qsan_chap_username configuration) as [u|];
    [|by apply (Hrest PNone w2 []); rewrite push_nil].
  destruct (qsan_iscsi.qsan_chap_password configuration) as [p|];
    [|by apply (Hrest PNone w2 []); rewrite push_nil].
  destruct (pystr.truthy u && pystr.truthy p);
    [|by apply (Hrest PNone w2 []); rewrite push_nil].
  destruct (Hchap u p) as [evs Hevs]. unfold bind at 1.
  destruct (set_target_chap transport repr_container target_id u p w2)
    as [[v|e] w3]; cbn [snd] in Hevs; [|by exists evs].
  unfold ret at 1. by apply (Hrest _ w3 evs).
Qed.

(** The first request of an export creates the target of the volume. *)
Lemma export_prefix_first (volume : Volume.t) (w : World) :
  is_Some (session (self w)) -> 1 <= retry_count (self w) ->
  exists evs,
    (export_prefix transport repr_container volume w).2
    = push w (EvRequest
                (make_request (self w) "POST" (base_url (self w) +:+ "/iscsi/targets")
                   (Some {[ "name" := PStr (qsan_iscsi._get_target_name volume) ]}) None)
              :: evs).
Proof.
  intros Hs Hrc. unfold export_prefix, bind at 1.
  destruct (_request_sends transport "POST" (base_url (self w) +:+ "/iscsi/targets")
              (Some {[ "name" := PStr (qsan_iscsi._get_target_name volume) ]}) None
              w Hs Hrc) as [evs1 Hevs1].
  change (_request transport "POST" (base_url (self w) +:+ "/iscsi/targets")
            (Some {[ "name" := PStr (qsan_iscsi._get_target_name volume) ]}) None w)
    with (create_iscsi_target transport (qsan_iscsi._get_target_name volume) None w)
    in Hevs1.
  destruct (create_iscsi_target transport _ None w) as [[target_info|e] w1];
    cbn [snd] in Hevs1; [|by exists evs1].
  unfold bind at 1, lift at 1.
  destruct (py_get target_info "id" PNone) as [target_id|e]; [|by exists evs1].
  unfold bind at 1, lift at 1.
  destruct (py_get target_info "iqn" PNone) as [target_iqn|e]; [|by exists evs1].
  unfold bind at 1.
  destruct (map_volume_to_target_only transport repr_container
              (qsan_iscsi._get_volume_name volume) target_id w1) as (evs2 & Hevs2 & _).
  exists (evs1 ++ evs2).
  destruct (map_volume_to_target transport repr_container _ target_id None w1)
    as [[mapping_info|e] w2]; cbn [snd] in Hevs2;
    [unfold bind, lift, ret; destruct (py_get mapping_info "lun_id" (PInt 0))|];
    cbn [snd]; by rewrite Hevs2, Hevs1, push_push.
Qed.

(** X23: what [create_export] stores is what [initialize_connection]
    reads.  When the array has answered the export with an IQN that is a
    string without space and a LUN that is an integer and not negative, and
    the portals of the configuration (or the management address, when none
    is configured) contain neither a space nor a semicolon, the
    [provider_location] of the result decodes to the portals of
    [_get_iscsi_portals], that IQN and that LUN; and for every volume that
    holds this location, [initialize_connection] without connector returns
    a descriptor whose properties name the first portal, the IQN and the
    LUN, and sends nothing. *)
Theorem export_then_connect (volume : Volume.t) (w w2 w' : World)
        (target_id : pyval) (iqn : string) (lun : Z) (res : gmap string pyval) :
  export_prefix transport repr_container volume w
  = (OK (target_id, PStr iqn, PInt lun), w2) ->
  qsan_iscsi.create_export transport repr_container configuration volume w
  = (OK res, w') ->
  Forall storable_portal (qsan_iscsi.qsan_iscsi_portals configuration) ->
  (qsan_iscsi.qsan_iscsi_portals configuration = [] ->
   forall ip, qsan_iscsi.qsan_management_ip configuration = Some ip ->
              storable_portal ip) ->
  pystr.contains " " iqn = false ->
  0 <= lun ->
  exists (location : string) (portals : list string),
    res !! "provider_location" = Some (PStr location)
    /\ qsan_iscsi._get_iscsi_portals configuration = OK portals
    /\ qsan_iscsi.parse_provider_location location = OK (portals, iqn, lun)
    /\ forall (stored : Volume.t) (w0 : World),
         Volume.provider_location stored = Some location ->
         exists properties : gmap string pyval,
           qsan_iscsi.initialize_connection transport repr_container stored None w0
           = (OK (<["data" := PDict properties]>
                  {[ "driver_volume_type" := PStr "iscsi" ]}), w0)
           /\ properties !! "target_portal" = PStr <$> head portals
           /\ properties !! "target_iqn" = Some (PStr iqn)
           /\ properties !! "target_lun" = Some (PInt lun).
Proof.
  intros Hprefix Hrun Hconfigured Hip Hiqn Hlun.
  rewrite create_export_split in Hrun. apply wrap_api_error_value in Hrun.
  erewrite bind_OK in Hrun by exact Hprefix.
  destruct (export_suffix_location _ _ _ _ Hrun) as (portals & Hportals & Hres).
  cbn [fst snd py_str] in Hres.
  assert (portals <> [] /\ Forall storable_portal portals) as [Hne Hstorable].
  { rewrite _get_iscsi_portals_run in Hportals.
    destruct (qsan_iscsi.qsan_iscsi_portals configuration) as [|p ps] eqn:Hps.
    - destruct (qsan_iscsi.qsan_management_ip configuration) as [ip|]; [|discriminate].
      injection Hportals as <-. split; [discriminate|].
      constructor; [|constructor]. apply with_default_port_storable. by apply Hip.
    - injection Hportals as <-. split; [discriminate|].
      apply Forall_forall. intros q Hq.
      change (q ∈ with_default_port <$> p :: ps) in Hq.
      apply list_elem_of_fmap in Hq as (q0 & -> & Hq0).
      apply with_default_port_storable.
      by apply (proj1 (Forall_forall _ _) Hconfigured). }
  pose proof (parse_encoded portals iqn lun Hne Hstorable Hiqn Hlun) as Hparse.
  eexists _, portals. split; [exact Hres|]. split; [exact Hportals|].
  split; [exact Hparse|].
  intros stored w0 Hstored.
  destruct (properties_of_location stored _ portals iqn lun Hstored
              (format_location_truthy _ _ _) Hparse)
    as (properties & Hprops & Hportal & Hi & Hl & _).
  exists properties. split; [|by repeat split].
  unfold qsan_iscsi.initialize_connection. rewrite try_reraise.
  erewrite bind_OK by reflexivity. unfold bind, lift. by rewrite Hprops.
Qed.

(** X24: [ensure_export] trusts a stored location and drops a new one.
    For a volume whose [provider_location] is set and not empty it returns
    at once and sends nothing, whatever the array holds.  Otherwise it runs
    [create_export] and discards the result: it leaves the same world,
    raises what [create_export] raises, and returns nothing.  When it
    returns in that case, the first request that went out was the POST to
    [/iscsi/targets] that creates the target of the volume. *)
Theorem ensure_export_keeps_or_recreates (volume : Volume.t) (w : World) :
  let run := qsan_iscsi.ensure_export transport repr_container configuration volume w in
  let export :=
    qsan_iscsi.create_export transport repr_container configuration volume w in
  (pystr.truthy_opt (Volume.provider_location volume) = true -> run = (OK tt, w))
  /\ (pystr.truthy_opt (Volume.provider_location volume) = false ->
      run.2 = export.2
      /\ match export.1 with
         | OK _ => run.1 = OK tt
         | Raise e => run.1 = Raise e
         end
      /\ (run.1 = OK tt ->
          exists evs,
            run.2
            = push w
                (EvRequest
                   (make_request (self w) "POST" (base_url (self w) +:+ "/iscsi/targets")
                      (Some {[ "name" := PStr (qsan_iscsi._get_target_name volume) ]})
                      None)
                 :: evs))).
Proof.
  intros run export. subst run export. unfold qsan_iscsi.ensure_export. split.
  - by intros ->.
  - intros ->.
    assert (forall (r : result (gmap string pyval)) (w1 : World),
              qsan_iscsi.create_export transport repr_container configuration volume w
              = (r, w1) ->
              (qsan_iscsi.create_export transport repr_container configuration volume
               ;;; ret tt)%sr w
              = (match r with OK _ => OK tt | Raise e => Raise e end, w1)) as Hbind.
    { intros r w1 Hexport. unfold bind. rewrite Hexport. by destruct r. }
    destruct (qsan_iscsi.create_export transport repr_container configuration volume w)
      as [r w1] eqn:Hexport.
    rewrite (Hbind r w1 eq_refl). cbn [fst snd].
    split; [reflexivity|]. split; [by destruct r|].
    destruct r as [res|e]; [intros _|discriminate].
    rewrite create_export_split in Hexport.
    pose proof Hexport as Hvalue. apply wrap_api_error_value in Hvalue.
    unfold bind in Hvalue.
    destruct (export_prefix transport repr_container volume w) as [[ids|e] w2] eqn:Hprefix;
      [|discriminate].
    destruct (export_prefix_value _ _ _ _ _ _ Hprefix) as [Hs Hrc].
    destruct (export_prefix_first volume w Hs Hrc) as [evs1 Hevs1].
    rewrite Hprefix in Hevs1. cbn [snd] in Hevs1.
    destruct (export_suffix_extends ids w2) as [evs2 Hevs2].
    rewrite Hvalue in Hevs2. cbn [snd] in Hevs2.
    exists (evs1 ++ evs2). by rewrite Hevs2, Hevs1, push_push.
Qed.

End RoundTrip.

Lemma export_then_connect_witness :
  exists (location : string) (res : gmap string pyval) (w' : common.World),
    qsan_iscsi.create_export sample.array sample.repr_container
      (sample.configuration false None None) (sample.volume None) sample.world
    = (OK res, w')
    /\ res !! "provider_location" = Some (PStr location)
    /\ qsan_iscsi.parse_provider_location location
       = OK (["192.168.1.101:3260"; "192.168.1.102:3260"],
             "iqn.2004-08.com.qsan:target-fake-id", 0).
Proof.
  destruct (export_then_connect sample.array sample.repr_container
              (sample.configuration false None None) (sample.volume None)
              sample.world
              (export_prefix sample.array sample.repr_container
                 (sample.volume None) sample.world).2
              (qsan_iscsi.create_export sample.array sample.repr_container
                 (sample.configuration false None None) (sample.volume None)
                 sample.world).2
              (PStr "target-001") "iqn.2004-08.com.qsan:target-fake-id" 0
              {[ "provider_auth" := PNone;
                 "provider_location" :=
                   PStr "192.168.1.101:3260;192.168.1.102:3260 iqn.2004-08.com.qsan:target-fake-id 0" ]})
    as (location & portals & Hres & Hportals & Hparse & _).
  - vm_compute. reflexivity.
  - vm_compute. reflexivity.
  - repeat constructor.
  - discriminate.
  - reflexivity.
  - lia.
  - exists location. eexists _, _. split; [vm_compute; reflexivity|].
    split; [exact Hres|].
    injection Hportals as <-. exact Hparse.
Defined.

Lemma ensure_export_keeps_or_recreates_witness :
  qsan_iscsi.ensure_export sample.array sample.repr_container
    (sample.configuration false None None) sample.exported_volume sample.world
  = (OK tt, sample.world).
Proof.
  destruct (ensure_export_keeps_or_recreates sample.array sample.repr_container
              (sample.configuration false None None) sample.exported_volume
              sample.world) as [Hkept _].
  exact (Hkept eq_refl).
Defined.
